(** * RoamRelic: the heritage-place discovery service

    A shallow embedding of [src/services/googlePlacesApi.ts]: the haversine
    distance, the relevance filter, the conversion of a Google Places result
    into the application's [Location], the ordered walk over the CORS proxies
    and the fallback data set.

    JavaScript numbers are IEEE-754 binary64 values: they are modelled by
    Rocq's primitive floats, whose operations are the correctly rounded ones.
    [Math.sin], [Math.cos], [Math.atan2] and the printing of numbers that are
    not integers are parameters of the development (the host); the process
    environment and the network are parameters too. JavaScript strings are
    modelled by [string]; the texts handled here are taken to be ASCII.

    The asynchronous function [fetchHistoricPlacesWithCORS] is a computation
    in a monad that threads the list of the requests made and either
    completes normally or throws; [try]/[catch] is a combinator of it.

    Contents: the host (strings, numbers, URLs); the data model; the
    service; the proxy chain seen path by path; sample hosts, networks and
    candidates; then the lemmas and the claims. *)

From Stdlib Require Import ZArith List Bool Ascii String Lia Floats.
From Stdlib Require Uint63.
From Stdlib Require Import DecimalString.
Import ListNotations.

Set Warnings "-inexact-float".
Local Open Scope string_scope.
Local Open Scope Z_scope.

(* ================================================================== *)
(** * The host: strings *)
(* ================================================================== *)

Module JSString.

(** [c.toLowerCase()] on one ASCII character. *)
Definition lower_ascii (c : ascii) : ascii :=
  let n := nat_of_ascii c in
  if (Nat.leb 65 n && Nat.leb n 90)%bool then ascii_of_nat (n + 32) else c.

(** [s.toLowerCase()] *)
Fixpoint toLowerCase (s : string) : string :=
  match s with
  | EmptyString => EmptyString
  | String c s' => String (lower_ascii c) (toLowerCase s')
  end.

(** [s.includes(sub)]: [sub] occurs in [s] as a contiguous substring. *)
Fixpoint includes (s sub : string) : bool :=
  (String.prefix sub s ||
   match s with
   | EmptyString => false
   | String _ s' => includes s' sub
   end)%bool.

(** [s.split(',')]: never empty, the empty string splits into one empty
    string. *)
Fixpoint split (sep : ascii) (s : string) : list string :=
  match s with
  | EmptyString => [EmptyString]
  | String c s' =>
      if Ascii.eqb c sep then EmptyString :: split sep s'
      else match split sep s' with
           | [] => [String c EmptyString]
           | w :: ws => String c w :: ws
           end
  end.

(** White space of [String.prototype.trim] within ASCII:
    TAB, LF, VT, FF, CR and SPACE. *)
Definition is_space (c : ascii) : bool :=
  let n := nat_of_ascii c in
  ((Nat.leb 9 n && Nat.leb n 13) || Nat.eqb n 32)%bool.

Fixpoint trimStart (s : string) : string :=
  match s with
  | EmptyString => EmptyString
  | String c s' => if is_space c then trimStart s' else s
  end.

(** Drops the white space at the end: a character is kept when it is not
    white space or when something is kept after it. *)
Fixpoint trimEnd (s : string) : string :=
  match s with
  | EmptyString => EmptyString
  | String c s' =>
      match trimEnd s' with
      | EmptyString => if is_space c then EmptyString else String c EmptyString
      | t => String c t
      end
  end.

(** [s.trim()] *)
Definition trim (s : string) : string := trimEnd (trimStart s).

(** A string in a condition: the empty string is falsy. *)
Definition truthy (s : string) : bool :=
  match s with EmptyString => false | _ => true end.

(** [arr.includes(x)] on an array of strings. *)
Definition array_includes (arr : list string) (x : string) : bool :=
  existsb (String.eqb x) arr.

End JSString.

(** An optional string in a condition: [undefined] and the empty string
    are falsy. *)
Definition truthy_opt (o : option string) : bool :=
  match o with
  | Some s => JSString.truthy s
  | None => false
  end.

(* ================================================================== *)
(** * The host: numbers *)
(* ================================================================== *)

Module JSNumber.

Local Open Scope float_scope.

(** The integer [z] as a number; exact for [|z| < 2^53]. *)
Definition of_Z (z : Z) : float :=
  if (z <? 0)%Z then - (of_uint63 (Uint63.of_Z (- z))) else of_uint63 (Uint63.of_Z z).

(** Decimal digits of a natural number, ["0"] for zero. *)
Definition decimal (n : Z) : string :=
  NilZero.string_of_uint (N.to_uint (Z.to_N n)).

(** [Math.round(x)]: the closest integer, a tie going toward +infinity;
    non-finite and integral values are returned as they are, and what
    rounds to zero keeps the sign of [x]. *)
Definition Math_round (x : float) : float :=
  match Prim2SF x with
  | S754_finite s m e =>
      if (0 <=? e)%Z then x
      else
        let sm := if s then Z.neg m else Z.pos m in
        let n := ((2 * sm + 2 ^ (- e)) / 2 ^ (1 - e))%Z in
        if (n =? 0)%Z then (if s then (-0) else 0) else of_Z n
  | _ => x
  end.

(** The value of a finite number as an integer, when it is one. *)
Definition to_integer (x : float) : option Z :=
  match Prim2SF x with
  | S754_zero _ => Some 0%Z
  | S754_finite s m e =>
      let sgn := fun n : Z => if s then (- n)%Z else n in
      if (0 <=? e)%Z then Some (sgn (Z.pos m * 2 ^ e)%Z)
      else if (Z.pos m mod 2 ^ (- e) =? 0)%Z then Some (sgn (Z.pos m / 2 ^ (- e))%Z)
      else None
  | _ => None
  end.

Section ToString.
(** [Number::toString] on the numbers that are neither integers below
    [10^21] in magnitude nor non-finite is the shortest round-trip
    decimal; it is left to the host. *)
Variable host_toString : float -> string.

(** [String(x)], as in a template literal. *)
Definition toString (x : float) : string :=
  match Prim2SF x with
  | S754_nan => "NaN"
  | S754_infinity s => if s then "-Infinity" else "Infinity"
  | _ =>
      match to_integer x with
      | Some n =>
          if (Z.abs n <? 10 ^ 21)%Z
          then ((if (n <? 0)%Z then "-" else EmptyString) ++ decimal (Z.abs n))%string
          else host_toString x
      | None => host_toString x
      end
  end.

(** The integer [n] for which [n / 10 - m * 2^e] is closest to zero, the
    larger one when there are two: [floor (10 * m * 2^e + 1/2)]. *)
Definition nearest_tenths (m : positive) (e : Z) : Z :=
  if (0 <=? e)%Z then (10 * Z.pos m * 2 ^ e)%Z
  else ((20 * Z.pos m + 2 ^ (- e)) / 2 ^ (1 - e))%Z.

(** [10^21 <= m * 2^e] *)
Definition at_least_1e21 (m : positive) (e : Z) : bool :=
  if (0 <=? e)%Z then (10 ^ 21 <=? Z.pos m * 2 ^ e)%Z
  else (10 ^ 21 * 2 ^ (- e) <=? Z.pos m)%Z.

(** [x.toFixed(1)]: not finite, as [String(x)]; [10^21] or more in
    magnitude, as [String(x)] too; otherwise the digits of the nearest
    number of tenths, with the point before the last one. *)
Definition toFixed1 (x : float) : string :=
  match Prim2SF x with
  | S754_nan => "NaN"
  | S754_infinity s => if s then "-Infinity" else "Infinity"
  | S754_zero _ => "0.0"
  | S754_finite s m e =>
      if at_least_1e21 m e then host_toString x
      else
        let n := nearest_tenths m e in
        ((if s then "-" else EmptyString) ++ decimal (n / 10) ++ "." ++ decimal (n mod 10))%string
  end.
End ToString.

End JSNumber.

(** [encodeURIComponent] and the serializer of [URLSearchParams]. *)
Module JSUrl.

Definition hex_digit (n : nat) : ascii :=
  ascii_of_nat (if Nat.ltb n 10 then 48 + n else 55 + n).

(** [%XX], upper-case. *)
Definition percent (c : ascii) : string :=
  let n := nat_of_ascii c in
  String "%" (String (hex_digit (n / 16)) (String (hex_digit (n mod 16)) EmptyString)).

Definition is_alnum (c : ascii) : bool :=
  let n := nat_of_ascii c in
  ((Nat.leb 48 n && Nat.leb n 57) || (Nat.leb 65 n && Nat.leb n 90) ||
   (Nat.leb 97 n && Nat.leb n 122))%bool.

Definition one_of (set : string) (c : ascii) : bool :=
  existsb (Ascii.eqb c) (list_ascii_of_string set).

Fixpoint encodeURIComponent (s : string) : string :=
  match s with
  | EmptyString => EmptyString
  | String c s' =>
      (if (is_alnum c || one_of "-_.!~*'()" c)%bool then String c EmptyString else percent c)
      ++ encodeURIComponent s'
  end.

(** application/x-www-form-urlencoded: a space becomes [+]. *)
Fixpoint form_encode (s : string) : string :=
  match s with
  | EmptyString => EmptyString
  | String c s' =>
      (if (is_alnum c || one_of "*-._" c)%bool then String c EmptyString
       else if Ascii.eqb c " " then "+" else percent c)
      ++ form_encode s'
  end.

(** [new URLSearchParams({...}).toString()] *)
Fixpoint URLSearchParams (params : list (string * string)) : string :=
  match params with
  | [] => EmptyString
  | [(k, v)] => form_encode k ++ "=" ++ form_encode v
  | (k, v) :: rest => form_encode k ++ "=" ++ form_encode v ++ "&" ++ URLSearchParams rest
  end.

End JSUrl.

(* ================================================================== *)
(** * The data model *)
(* ================================================================== *)

(** [interface GooglePlaceResponse] *)
Module GooglePlace.
Record Photo := {
  height : float;
  width : float;
  photo_reference : string
}.

Record t := {
  place_id : string;
  name : string;
  types : list string;
  business_status : option string;
  formatted_address : option string;
  lat : float;                       (* geometry.location.lat *)
  lng : float;                       (* geometry.location.lng *)
  rating : option float;
  user_ratings_total : option float;
  vicinity : option string;
  photos : option (list Photo);
  open_now : option bool             (* opening_hours?.open_now *)
}.
End GooglePlace.
Definition GooglePlaceResponse : Type := GooglePlace.t.

(** [interface GooglePlacesApiResponse] *)
Record GooglePlacesApiResponse := {
  results : list GooglePlaceResponse;
  status : string;
  error_message : option string;
  next_page_token : option string
}.

(** [interface Location], with its [googlePlacesData]. *)
Module Loc.
Record PlacesData := {
  rating : option float;
  userRatingsTotal : option float;
  businessStatus : option string;
  openNow : option bool;
  types : list string;
  formattedAddress : option string;
  vicinity : option string
}.

Record t := {
  id : string;
  name : string;
  description : string;
  latitude : float;
  longitude : float;
  imageUrl : string;
  audioUrl : option string;
  audioTitle : option string;
  audioDuration : option string;
  category : string;
  distance : string;
  googlePlacesData : PlacesData
}.
End Loc.
Definition Location : Type := Loc.t.

(* ================================================================== *)
(** * The service *)
(* ================================================================== *)

Section Service.

(** The host's trigonometry ([Math.sin], [Math.cos], [Math.atan2] are
    implementation-approximated), its printing of the numbers that are not
    integers, and the process environment. *)
Variable Math_sin Math_cos : float -> float.
Variable Math_atan2 : float -> float -> float.
Variable host_toString : float -> string.
Variable REACT_APP_GOOGLE_PLACES_API_KEY : option string.

(** [Math.PI] *)
Definition Math_PI : float := 3.141592653589793%float.

(** Haversine formula; the distance in meters, rounded. *)
Definition calculateDistance (lat1 lon1 lat2 lon2 : float) : float :=
  (let R := 6371 in
   let dLat := (lat2 - lat1) * Math_PI / 180 in
   let dLon := (lon2 - lon1) * Math_PI / 180 in
   let a :=
     Math_sin (dLat / 2) * Math_sin (dLat / 2) +
     Math_cos (lat1 * Math_PI / 180) * Math_cos (lat2 * Math_PI / 180) *
     Math_sin (dLon / 2) * Math_sin (dLon / 2) in
   let c := 2 * Math_atan2 (PrimFloat.sqrt a) (PrimFloat.sqrt (1 - a)) in
   let distance := R * c * 1000 in
   JSNumber.Math_round distance)%float.

(** The [distance] field of [convertGooglePlaceToLocation]:
    [distance > 1000 ? `${(distance / 1000).toFixed(1)}km` : `${distance}m`] *)
Definition formatDistance (distance : float) : string :=
  if (1000 <? distance)%float
  then JSNumber.toFixed1 host_toString (distance / 1000)%float ++ "km"
  else JSNumber.toString host_toString distance ++ "m".

Definition buildPlaceDescription (place : GooglePlaceResponse) : string :=
  let placeTypes := GooglePlace.types place in
  let has := JSString.array_includes placeTypes in
  let description :=
    if (has "tourist_attraction" || has "museum")%bool then
      GooglePlace.name place ++ " is a renowned heritage site and tourist destination. "
    else if (has "place_of_worship" || has "hindu_temple")%bool then
      GooglePlace.name place ++ " is a sacred place of worship with rich cultural and spiritual significance. "
    else if has "historical_landmark" then
      GooglePlace.name place ++ " is a historical landmark that showcases the architectural heritage and cultural legacy of the region. "
    else
      GooglePlace.name place ++ " is a significant heritage site that represents the cultural and historical importance of this area. " in
  (* location context *)
  let description :=
    if truthy_opt (GooglePlace.vicinity place) then
      description ++ "Located in " ++ match GooglePlace.vicinity place with Some v => v | None => EmptyString end ++ ", "
    else if truthy_opt (GooglePlace.formatted_address place) then
      let addressParts :=
        JSString.split "," match GooglePlace.formatted_address place with Some a => a | None => EmptyString end in
      if Nat.ltb 1 (List.length addressParts) then
        description ++ "Located in "
          ++ JSString.trim (nth (List.length addressParts - 2) addressParts EmptyString) ++ ", "
      else description
    else description in
  description ++ "this site offers visitors a glimpse into the rich history and cultural traditions that have shaped this region over centuries.".

Definition getImageUrl (place : GooglePlaceResponse) : string :=
  let fallback :=
    let placeTypes := GooglePlace.types place in
    let has := JSString.array_includes placeTypes in
    let named := JSString.includes (JSString.toLowerCase (GooglePlace.name place)) in
    if has "museum" then
      "https://images.unsplash.com/photo-1578495555443-d134c52754e7?w=400&h=300&fit=crop"
    else if (has "place_of_worship" || has "hindu_temple")%bool then
      "https://images.unsplash.com/photo-1583224964938-0c17db9e623a?w=400&h=300&fit=crop"
    else if (has "historical_landmark" || named "fort")%bool then
      "https://images.unsplash.com/photo-1566127952889-bf906f4e4c5d?w=400&h=300&fit=crop"
    else if named "palace" then
      "https://images.unsplash.com/photo-1545042746-d0a8b69e5e22?w=400&h=300&fit=crop"
    else if named "charminar" then
      "https://images.unsplash.com/photo-1564507592333-c60657eea523?w=400&h=300&fit=crop"
    else
      "https://images.unsplash.com/photo-1578662996442-48f60103fc96?w=400&h=300&fit=crop" in
  match GooglePlace.photos place with
  | Some (photo :: _) =>
      match REACT_APP_GOOGLE_PLACES_API_KEY with
      | Some apiKey =>
          if JSString.truthy apiKey then
            let photoUrl :=
              "https://maps.googleapis.com/maps/api/place/photo?maxwidth=400&photoreference="
                ++ GooglePlace.photo_reference photo ++ "&key=" ++ apiKey in
            "https://cors-anywhere.herokuapp.com/" ++ photoUrl
          else fallback
      | None => fallback
      end
  | _ => fallback
  end.

Definition convertGooglePlaceToLocation
    (place : GooglePlaceResponse) (userLat userLng : float) : Location :=
  let distance :=
    calculateDistance userLat userLng (GooglePlace.lat place) (GooglePlace.lng place) in
  {| Loc.id := GooglePlace.place_id place;
     Loc.name := GooglePlace.name place;
     Loc.description := buildPlaceDescription place;
     Loc.latitude := GooglePlace.lat place;
     Loc.longitude := GooglePlace.lng place;
     Loc.imageUrl := getImageUrl place;
     Loc.audioUrl := None;
     Loc.audioTitle := None;
     Loc.audioDuration := None;
     Loc.category := "heritage";
     Loc.distance := formatDistance distance;
     Loc.googlePlacesData :=
       {| Loc.rating := GooglePlace.rating place;
          Loc.userRatingsTotal := GooglePlace.user_ratings_total place;
          Loc.businessStatus := GooglePlace.business_status place;
          Loc.openNow := GooglePlace.open_now place;
          Loc.types := GooglePlace.types place;
          Loc.formattedAddress := GooglePlace.formatted_address place;
          Loc.vicinity := GooglePlace.vicinity place |} |}.

Definition historicTypes : list string :=
  ["tourist_attraction"; "museum"; "place_of_worship"; "establishment"; "point_of_interest"].

Definition historicKeywords : list string :=
  ["temple"; "fort"; "palace"; "monument"; "heritage"; "historic";
   "archaeological"; "ancient"; "cultural"; "tomb"; "mosque"; "church";
   "castle"; "cathedral"; "shrine"; "memorial"].

(** The predicate of [filterHistoricPlaces]. *)
Definition isHistoric (place : GooglePlaceResponse) : bool :=
  let hasHistoricType :=
    existsb (fun type => JSString.array_includes historicTypes type) (GooglePlace.types place) in
  let hasHistoricKeyword :=
    existsb (fun keyword =>
               (JSString.includes (JSString.toLowerCase (GooglePlace.name place)) keyword ||
                match GooglePlace.vicinity place with
                | Some v => JSString.truthy v && JSString.includes (JSString.toLowerCase v) keyword
                | None => false
                end)%bool)
            historicKeywords in
  (hasHistoricType || hasHistoricKeyword)%bool.

Definition filterHistoricPlaces (places : list GooglePlaceResponse) : list GooglePlaceResponse :=
  filter isHistoric places.

(** Fallback historic places for development and demo. *)
Definition getFallbackHistoricPlaces (latitude longitude : float) : list Location :=
  [ {| Loc.id := "fallback-historic-1";
       Loc.name := "Charminar Heritage Monument";
       Loc.description := "Charminar is a magnificent monument and mosque built in 1591. This iconic structure stands as a symbol of Hyderabad with its four grand arches and minarets. The monument showcases Indo-Islamic architecture and offers visitors a glimpse into the rich history of the Qutb Shahi dynasty.";
       Loc.latitude := (latitude + 0.01)%float;
       Loc.longitude := (longitude + 0.01)%float;
       Loc.imageUrl := "https://images.unsplash.com/photo-1564507592333-c60657eea523?w=400&h=300&fit=crop";
       Loc.audioUrl := None; Loc.audioTitle := None; Loc.audioDuration := None;
       Loc.category := "heritage";
       Loc.distance := "1.2km";
       Loc.googlePlacesData :=
         {| Loc.rating := Some 4.5%float;
            Loc.userRatingsTotal := Some 8234%float;
            Loc.businessStatus := Some "OPERATIONAL";
            Loc.openNow := Some true;
            Loc.types := ["tourist_attraction"; "historical_landmark"; "monument"];
            Loc.formattedAddress := Some "Charminar Rd, Char Kaman, Ghansi Bazaar, Hyderabad, Telangana 500002, India";
            Loc.vicinity := Some "Charminar" |} |};
    {| Loc.id := "fallback-heritage-2";
       Loc.name := "State Archaeological Museum";
       Loc.description := "The State Archaeological Museum houses an extensive collection of artifacts, sculptures, and relics that chronicle the rich cultural heritage of the region. Established to preserve and showcase archaeological treasures, the museum offers visitors an educational journey through centuries of art, culture, and history.";
       Loc.latitude := (latitude - 0.01)%float;
       Loc.longitude := (longitude + 0.01)%float;
       Loc.imageUrl := "https://images.unsplash.com/photo-1578495555443-d134c52754e7?w=400&h=300&fit=crop";
       Loc.audioUrl := None; Loc.audioTitle := None; Loc.audioDuration := None;
       Loc.category := "heritage";
       Loc.distance := "2.1km";
       Loc.googlePlacesData :=
         {| Loc.rating := Some 4.2%float;
            Loc.userRatingsTotal := Some 1456%float;
            Loc.businessStatus := Some "OPERATIONAL";
            Loc.openNow := Some true;
            Loc.types := ["museum"; "tourist_attraction"; "cultural_center"];
            Loc.formattedAddress := Some "Public Gardens, Nampally, Hyderabad, Telangana 500001, India";
            Loc.vicinity := Some "Nampally" |} |};
    {| Loc.id := "fallback-temple-3";
       Loc.name := "Birla Mandir Temple";
       Loc.description := "Birla Mandir is a stunning Hindu temple constructed entirely of white marble and dedicated to Lord Venkateswara. Perched atop a hill, this temple combines traditional and modern architectural elements, offering devotees and visitors a serene spiritual experience along with panoramic views of the city.";
       Loc.latitude := (latitude + 0.005)%float;
       Loc.longitude := (longitude - 0.005)%float;
       Loc.imageUrl := "https://images.unsplash.com/photo-1583224964938-0c17db9e623a?w=400&h=300&fit=crop";
       Loc.audioUrl := None; Loc.audioTitle := None; Loc.audioDuration := None;
       Loc.category := "heritage";
       Loc.distance := "800m";
       Loc.googlePlacesData :=
         {| Loc.rating := Some 4.7%float;
            Loc.userRatingsTotal := Some 12089%float;
            Loc.businessStatus := Some "OPERATIONAL";
            Loc.openNow := Some true;
            Loc.types := ["hindu_temple"; "place_of_worship"; "tourist_attraction"];
            Loc.formattedAddress := Some "Hill Fort Rd, Ambedkar Colony, Mehdipatnam, Hyderabad, Telangana 500028, India";
            Loc.vicinity := Some "Mehdipatnam" |} |};
    {| Loc.id := "fallback-fort-4";
       Loc.name := "Golconda Fort";
       Loc.description := "Golconda Fort is a medieval fortress built by the Kakatiya dynasty and later expanded by the Qutb Shahi rulers. This imposing citadel features ingenious architecture, intricate acoustic systems, and defensive mechanisms. The fort complex offers visitors a fascinating journey through military architecture and royal history.";
       Loc.latitude := (latitude - 0.005)%float;
       Loc.longitude := (longitude - 0.01)%float;
       Loc.imageUrl := "https://images.unsplash.com/photo-1566127952889-bf906f4e4c5d?w=400&h=300&fit=crop";
       Loc.audioUrl := None; Loc.audioTitle := None; Loc.audioDuration := None;
       Loc.category := "heritage";
       Loc.distance := "1.8km";
       Loc.googlePlacesData :=
         {| Loc.rating := Some 4.3%float;
            Loc.userRatingsTotal := Some 15678%float;
            Loc.businessStatus := Some "OPERATIONAL";
            Loc.openNow := Some false;
            Loc.types := ["historical_landmark"; "fort"; "tourist_attraction"];
            Loc.formattedAddress := Some "Khair Complex, Ibrahim Bagh, Hyderabad, Telangana 500008, India";
            Loc.vicinity := Some "Ibrahim Bagh" |} |};
    {| Loc.id := "fallback-palace-5";
       Loc.name := "Chowmahalla Palace";
       Loc.description := "Chowmahalla Palace served as the official residence of the Nizams of Hyderabad and is renowned for its exquisite architecture and royal grandeur. The palace complex showcases a blend of Persian, Turkish, and European architectural styles, featuring ornate halls, beautiful courtyards, and a remarkable collection of vintage cars and artifacts.";
       Loc.latitude := (latitude + 0.008)%float;
       Loc.longitude := (longitude - 0.008)%float;
       Loc.imageUrl := "https://images.unsplash.com/photo-1545042746-d0a8b69e5e22?w=400&h=300&fit=crop";
       Loc.audioUrl := None; Loc.audioTitle := None; Loc.audioDuration := None;
       Loc.category := "heritage";
       Loc.distance := "2.5km";
       Loc.googlePlacesData :=
         {| Loc.rating := Some 4.4%float;
            Loc.userRatingsTotal := Some 3567%float;
            Loc.businessStatus := Some "CLOSED_TEMPORARILY";
            Loc.openNow := Some false;
            Loc.types := ["palace"; "historical_landmark"; "museum"];
            Loc.formattedAddress := Some "20-4-236, Motigalli, Khilwat, Hyderabad, Telangana 500002, India";
            Loc.vicinity := Some "Khilwat" |} |} ].


(* ---------------------------------------------------------------- *)
(** ** The network and the effects of [fetchHistoricPlacesWithCORS] *)

(** What [fetch] is called with. *)
Record Request := {
  url : string;
  headers : list (string * string)
}.

(** A computation completes normally or throws (a rejected promise is a
    throw at its [await]). *)
Inductive Completion (A : Type) : Type :=
| Normal (a : A)
| Throw (reason : string).
Arguments Normal {A} a.
Arguments Throw {A} reason.

(** The body of a response, as [response.json()] yields it: not JSON at
    all; the wrapper of allorigins, [{ status: { http_code }, contents }],
    with what [JSON.parse(contents)] gives; the provider's answer; or JSON
    of any other shape, from which no places can be read (reading them
    throws a [TypeError]). *)
Inductive Body : Type :=
| NotJson
| Wrapper (http_code : option float) (contents : Completion GooglePlacesApiResponse)
| Direct (data : GooglePlacesApiResponse)
| OtherJson.

Record Response := {
  ok : bool;
  http_status : float;
  body : Body
}.

(** The network: what a request yields, given the requests made before
    it. [Throw] is a transport failure. *)
Variable network : list Request -> Request -> Completion Response.

(** Computations thread the list of the requests made so far. *)
Definition M (A : Type) : Type := list Request -> list Request * Completion A.

Definition ret {A} (a : A) : M A := fun log => (log, Normal a).

Definition throw {A} (reason : string) : M A := fun log => (log, Throw reason).

Definition bind {A B} (m : M A) (k : A -> M B) : M B :=
  fun log =>
    match m log with
    | (log', Normal a) => k a log'
    | (log', Throw reason) => (log', Throw reason)
    end.

(** [try { m } catch (e) { handler e }] *)
Definition try_catch {A} (m : M A) (handler : string -> M A) : M A :=
  fun log =>
    match m log with
    | (log', Normal a) => (log', Normal a)
    | (log', Throw reason) => handler reason log'
    end.

(** [await fetch(url, options)] *)
Definition fetch (request : Request) : M Response :=
  fun log => ((log ++ [request])%list, network log request).

(** A completion met inside a computation. *)
Definition lift {A} (c : Completion A) : M A := fun log => (log, c).

Notation "x <- m ;; k" := (bind m (fun x => k))
  (at level 61, m at next level, right associativity).

(** How one turn of the proxy loop ends. *)
Inductive Turn : Type :=
| Continue
| Return (locations : list Location).

Definition corsProxies : list string :=
  [ "https://api.allorigins.win/get?url=";
    "https://corsproxy.io/?";
    "https://thingproxy.freeboard.io/fetch/";
    "https://cors-anywhere.herokuapp.com/" ].

Definition baseUrl : string :=
  "https://maps.googleapis.com/maps/api/place/nearbysearch/json".

Definition targetUrl (apiKey : string) (latitude longitude : float) : string :=
  let params :=
    JSUrl.URLSearchParams
      [ ("location", JSNumber.toString host_toString latitude ++ ","
                       ++ JSNumber.toString host_toString longitude);
        ("radius", "50000");
        ("type", "tourist_attraction");
        ("keyword", "historic heritage monument museum archaeological temple fort palace");
        ("key", apiKey) ] in
  baseUrl ++ "?" ++ params.

(** The request sent through one proxy. *)
Definition proxyRequest (corsProxy target : string) : Request :=
  if JSString.includes corsProxy "allorigins.win"
  then {| url := corsProxy ++ JSUrl.encodeURIComponent target; headers := [] |}
  else {| url := corsProxy ++ target;
          headers := [("X-Requested-With", "XMLHttpRequest")] |}.

(** [data], or [None] where the loop moves on: the wrapper's code is not
    200, or the body has another shape than the proxy's, so that the
    status read from it is not the one looked for. *)
Definition readData (corsProxy : string) (response : Response)
  : M (option GooglePlacesApiResponse) :=
  if JSString.includes corsProxy "allorigins.win" then
    match body response with
    | NotJson => throw "SyntaxError"
    | Wrapper (Some code) contents =>
        if (code =? 200)%float
        then data <- lift contents ;; ret (Some data)
        else ret None
    | Wrapper None _ => ret None
    | Direct _ => ret None
    | OtherJson => throw "TypeError"
    end
  else
    match body response with
    | NotJson => throw "SyntaxError"
    | Wrapper _ _ => ret None
    | Direct data => ret (Some data)
    | OtherJson => throw "TypeError"
    end.

(** The body of the loop, inside its [try]. *)
Definition tryProxy (corsProxy target : string) (latitude longitude : float) : M Turn :=
  response <- fetch (proxyRequest corsProxy target) ;;
  if negb (ok response) then ret Continue
  else
    read <- readData corsProxy response ;;
    match read with
    | None => ret Continue
    | Some data =>
        if negb (String.eqb (status data) "OK") then ret Continue
        else
          let historicPlaces := filterHistoricPlaces (results data) in
          let locations :=
            map (fun place => convertGooglePlaceToLocation place latitude longitude)
                historicPlaces in
          ret (Return locations)
    end.

(** [for (let i = 0; i < corsProxies.length; i++) try {...} catch {continue}];
    [None] when the loop runs to its end. *)
Fixpoint proxyLoop (proxies : list string) (target : string) (latitude longitude : float)
  : M (option (list Location)) :=
  match proxies with
  | [] => ret None
  | corsProxy :: rest =>
      turn <- try_catch (tryProxy corsProxy target latitude longitude)
                        (fun _ => ret Continue) ;;
      match turn with
      | Return locations => ret (Some locations)
      | Continue => proxyLoop rest target latitude longitude
      end
  end.

Definition fetchHistoricPlacesWithCORS (latitude longitude : float) : M (list Location) :=
  try_catch
    (match REACT_APP_GOOGLE_PLACES_API_KEY with
     | None => ret (getFallbackHistoricPlaces latitude longitude)
     | Some apiKey =>
         if negb (JSString.truthy apiKey)
         then ret (getFallbackHistoricPlaces latitude longitude)
         else
           found <- proxyLoop corsProxies (targetUrl apiKey latitude longitude)
                              latitude longitude ;;
           match found with
           | Some locations => ret locations
           | None => ret (getFallbackHistoricPlaces latitude longitude)
           end
     end)
    (fun _ => ret (getFallbackHistoricPlaces latitude longitude)).

(** One call from the UI: the requests it made and how it completed. *)
Definition discoverPlaces (latitude longitude : float)
  : list Request * Completion (list Location) :=
  fetchHistoricPlacesWithCORS latitude longitude [].

End Service.

Arguments Normal {A} a.
Arguments Throw {A} reason.

(* ================================================================== *)
(** * The proxy chain, path by path *)
(* ================================================================== *)

Section ProxyChain.

Variable network : list Request -> Request -> Completion Response.

(** What a path contributes: the provider's answer when the transport
    succeeded, the HTTP status is a success, the envelope is the one of
    the proxy (for allorigins: code 200 and contents that parse), and the
    provider reports ["OK"]; nothing otherwise. *)
Definition pathData (corsProxy : string) (answer : Completion Response)
  : option GooglePlacesApiResponse :=
  match answer with
  | Throw _ => None
  | Normal response =>
      if negb (ok response) then None
      else
        let unwrapped :=
          if JSString.includes corsProxy "allorigins.win" then
            match body response with
            | Wrapper (Some code) (Normal data) =>
                if (code =? 200)%float then Some data else None
            | _ => None
            end
          else
            match body response with
            | Direct data => Some data
            | _ => None
            end in
        match unwrapped with
        | Some data => if String.eqb (status data) "OK" then Some data else None
        | None => None
        end
  end.

(** The requests of the first [n] paths, in the order of the list. *)
Definition requestsOf (proxies : list string) (target : string) (n : nat) : list Request :=
  map (fun corsProxy => proxyRequest corsProxy target) (firstn n proxies).

(** What path [j] contributes when the paths before it were each asked
    once, in order, after the requests of [log]. *)
Definition pathDataAt (log : list Request) (proxies : list string) (target : string) (j : nat)
  : option GooglePlacesApiResponse :=
  pathData (nth j proxies EmptyString)
           (network (log ++ requestsOf proxies target j)
                    (proxyRequest (nth j proxies EmptyString) target)).

(** No path of the service contributes data. *)
Definition Exhausted (target : string) : Prop :=
  forall j, (j < List.length corsProxies)%nat ->
            pathDataAt [] corsProxies target j = None.

(** Path [k] of the service is the first that contributes data, and the
    data is [data]. *)
Definition FirstSuccess (target : string) (k : nat) (data : GooglePlacesApiResponse) : Prop :=
  (k < List.length corsProxies)%nat /\
  (forall j, (j < k)%nat -> pathDataAt [] corsProxies target j = None) /\
  pathDataAt [] corsProxies target k = Some data.

End ProxyChain.

(** The offsets of the fallback places from the anchor, in degrees. *)
Definition seedOffsets : list (float * float) :=
  [ (0.01, 0.01); (-0.01, 0.01); (0.005, -0.005); (-0.005, -0.01); (0.008, -0.008) ]%float.

(** A location with its coordinates blanked. *)
Definition withoutCoordinates (p : Location) : Location :=
  {| Loc.id := Loc.id p;
     Loc.name := Loc.name p;
     Loc.description := Loc.description p;
     Loc.latitude := 0%float;
     Loc.longitude := 0%float;
     Loc.imageUrl := Loc.imageUrl p;
     Loc.audioUrl := Loc.audioUrl p;
     Loc.audioTitle := Loc.audioTitle p;
     Loc.audioDuration := Loc.audioDuration p;
     Loc.category := Loc.category p;
     Loc.distance := Loc.distance p;
     Loc.googlePlacesData := Loc.googlePlacesData p |}.

(** The static images of [getImageUrl] as an ordered list of rules: the
    first rule whose test holds gives the image. *)
Definition hasType (type : string) (place : GooglePlaceResponse) : bool :=
  JSString.array_includes (GooglePlace.types place) type.

Definition nameHas (word : string) (place : GooglePlaceResponse) : bool :=
  JSString.includes (JSString.toLowerCase (GooglePlace.name place)) word.

Definition staticImageRules : list ((GooglePlaceResponse -> bool) * string) :=
  [ (hasType "museum",
     "https://images.unsplash.com/photo-1578495555443-d134c52754e7?w=400&h=300&fit=crop");
    (fun place => (hasType "place_of_worship" place || hasType "hindu_temple" place)%bool,
     "https://images.unsplash.com/photo-1583224964938-0c17db9e623a?w=400&h=300&fit=crop");
    (fun place => (hasType "historical_landmark" place || nameHas "fort" place)%bool,
     "https://images.unsplash.com/photo-1566127952889-bf906f4e4c5d?w=400&h=300&fit=crop");
    (nameHas "palace",
     "https://images.unsplash.com/photo-1545042746-d0a8b69e5e22?w=400&h=300&fit=crop");
    (nameHas "charminar",
     "https://images.unsplash.com/photo-1564507592333-c60657eea523?w=400&h=300&fit=crop") ].

Definition genericImage : string :=
  "https://images.unsplash.com/photo-1578662996442-48f60103fc96?w=400&h=300&fit=crop".

Fixpoint firstMatch (rules : list ((GooglePlaceResponse -> bool) * string))
    (default : string) (place : GooglePlaceResponse) : string :=
  match rules with
  | [] => default
  | (test, image) :: rest => if test place then image else firstMatch rest default place
  end.

(** The provider's photo endpoint and the proxy put in front of it. *)
Definition photoEndpoint : string := "https://maps.googleapis.com/maps/api/place/photo".
Definition imageProxy : string := "https://cors-anywhere.herokuapp.com/".

(* ================================================================== *)
(** * Concrete hosts, networks and candidates *)
(* ================================================================== *)

(** A host whose trigonometry is computed by truncated power series. *)
Module TaylorHost.
Local Open Scope float_scope.

Definition sin (x : float) : float :=
  let q := x * x in
  x * (1 - q / 6 * (1 - q / 20 * (1 - q / 42 * (1 - q / 72 * (1 - q / 110 *
      (1 - q / 156 * (1 - q / 210 * (1 - q / 272)))))))).

Definition cos (x : float) : float :=
  let q := x * x in
  1 - q / 2 * (1 - q / 12 * (1 - q / 30 * (1 - q / 56 * (1 - q / 90 *
      (1 - q / 132 * (1 - q / 182 * (1 - q / 240))))))).

Definition atan_small (t : float) : float :=
  let q := t * t in
  t * (1 - q * (1 / 3 - q * (1 / 5 - q * (1 / 7 - q * (1 / 9 - q * (1 / 11 -
      q * (1 / 13 - q * (1 / 15 - q * (1 / 17 - q * (1 / 19)))))))))).

(** [tan (a / 2)] from [tan a]. *)
Definition halve (t : float) : float := t / (1 + PrimFloat.sqrt (1 + t * t)).

Definition atan_unit (t : float) : float := 8 * atan_small (halve (halve (halve t))).

Definition atan (t : float) : float :=
  if 1 <? abs t
  then (if 0 <? t then Math_PI / 2 - atan_unit (1 / t)
        else - (Math_PI / 2) - atan_unit (1 / t))
  else atan_unit t.

Definition atan2 (y x : float) : float :=
  if 0 <? x then atan (y / x)
  else if x <? 0 then (if y <? 0 then atan (y / x) - Math_PI else atan (y / x) + Math_PI)
  else if 0 <? y then Math_PI / 2
  else if y <? 0 then - (Math_PI / 2)
  else y + x.

(** Numbers that are not integers are not printed by this host. *)
Definition toString (x : float) : string := "?".
End TaylorHost.

Module Sample.
Local Open Scope float_scope.

(** Hyderabad. *)
Definition anchorLat : float := 17.3850.
Definition anchorLng : float := 78.4867.

(** A candidate 1.11 km due north of the anchor: 1110 m of meridian are
    0.009982469 degrees on a sphere of radius 6371 km. *)
Definition charminar : GooglePlaceResponse :=
  {| GooglePlace.place_id := "ChIJx9Lr6tqZyzsRwvu6koO3k64";
     GooglePlace.name := "Charminar";
     GooglePlace.types := ["tourist_attraction"];
     GooglePlace.business_status := None;
     GooglePlace.formatted_address := Some "Charminar Rd, Hyderabad";
     GooglePlace.lat := 17.394982469;
     GooglePlace.lng := 78.4867;
     GooglePlace.rating := None;
     GooglePlace.user_ratings_total := None;
     GooglePlace.vicinity := None;
     GooglePlace.photos := None;
     GooglePlace.open_now := None |}.

(** A candidate that no type and no keyword makes relevant. *)
Definition cafe : GooglePlaceResponse :=
  {| GooglePlace.place_id := "ChIJcafe";
     GooglePlace.name := "Niloufer Cafe";
     GooglePlace.types := ["cafe"; "food"];
     GooglePlace.business_status := Some "OPERATIONAL";
     GooglePlace.formatted_address := None;
     GooglePlace.lat := 17.4;
     GooglePlace.lng := 78.46;
     GooglePlace.rating := Some 4.3;
     GooglePlace.user_ratings_total := Some 52000;
     GooglePlace.vicinity := Some "Lakdikapul";
     GooglePlace.photos := None;
     GooglePlace.open_now := Some true |}.

(** A candidate with a photo. *)
Definition golconda : GooglePlaceResponse :=
  {| GooglePlace.place_id := "ChIJgolconda";
     GooglePlace.name := "Golconda";
     GooglePlace.types := ["fort"];
     GooglePlace.business_status := None;
     GooglePlace.formatted_address := None;
     GooglePlace.lat := 17.3833;
     GooglePlace.lng := 78.4011;
     GooglePlace.rating := None;
     GooglePlace.user_ratings_total := None;
     GooglePlace.vicinity := None;
     GooglePlace.photos :=
       Some [ {| GooglePlace.height := 300; GooglePlace.width := 400;
                 GooglePlace.photo_reference := "Aap_uE" |} ];
     GooglePlace.open_now := None |}.

Definition answer (places : list GooglePlaceResponse) : GooglePlacesApiResponse :=
  {| results := places; status := "OK"; error_message := None; next_page_token := None |}.

(** Every request fails at the transport. *)
Definition offline (log : list Request) (request : Request) : Completion Response :=
  Throw "TypeError: Failed to fetch".

(** The first request is refused by its proxy (HTTP 403); every later one
    is answered directly by the provider with [places]. *)
Definition secondPathAnswers (places : list GooglePlaceResponse)
    (log : list Request) (request : Request) : Completion Response :=
  match log with
  | [] => Normal {| ok := false; http_status := 403; body := NotJson |}
  | _ => Normal {| ok := true; http_status := 200; body := Direct (answer places) |}
  end.

(** One call with the Taylor host. *)
Definition run (apiKey : option string)
    (network : list Request -> Request -> Completion Response)
  : list Request * Completion (list Location) :=
  discoverPlaces TaylorHost.sin TaylorHost.cos TaylorHost.atan2 TaylorHost.toString
                 apiKey network anchorLat anchorLng.
End Sample.

(* ================================================================== *)
(** * Notions used to state further properties *)
(* ================================================================== *)

(** [Number.isFinite(x)]: neither NaN nor an infinity. *)
Definition isFinite (x : float) : bool :=
  match Prim2SF x with
  | S754_zero _ | S754_finite _ _ _ => true
  | S754_infinity _ | S754_nan => false
  end.

(** The characters of which access keys are made: letters, digits, [-]
    and [_]. Both URL encodings leave them as they are. *)
Definition keyChar (c : ascii) : bool :=
  (JSUrl.is_alnum c || JSUrl.one_of "-_" c)%bool.

(** A candidate seen without the fields the description is not built
    from: its text fields [name], [types], [vicinity], [formatted_address]. *)
Definition describedFields (place : GooglePlaceResponse)
  : string * list string * option string * option string :=
  (GooglePlace.name place, GooglePlace.types place,
   GooglePlace.vicinity place, GooglePlace.formatted_address place).

(** A candidate under another name. *)
Definition withName (name : string) (place : GooglePlaceResponse) : GooglePlaceResponse :=
  {| GooglePlace.place_id := GooglePlace.place_id place;
     GooglePlace.name := name;
     GooglePlace.types := GooglePlace.types place;
     GooglePlace.business_status := GooglePlace.business_status place;
     GooglePlace.formatted_address := GooglePlace.formatted_address place;
     GooglePlace.lat := GooglePlace.lat place;
     GooglePlace.lng := GooglePlace.lng place;
     GooglePlace.rating := GooglePlace.rating place;
     GooglePlace.user_ratings_total := GooglePlace.user_ratings_total place;
     GooglePlace.vicinity := GooglePlace.vicinity place;
     GooglePlace.photos := GooglePlace.photos place;
     GooglePlace.open_now := GooglePlace.open_now place |}.

(** A candidate with other ratings, status and opening hours. *)
Definition withMetadata (rating total : option float) (business : option string)
    (open : option bool) (place : GooglePlaceResponse) : GooglePlaceResponse :=
  {| GooglePlace.place_id := GooglePlace.place_id place;
     GooglePlace.name := GooglePlace.name place;
     GooglePlace.types := GooglePlace.types place;
     GooglePlace.business_status := business;
     GooglePlace.formatted_address := GooglePlace.formatted_address place;
     GooglePlace.lat := GooglePlace.lat place;
     GooglePlace.lng := GooglePlace.lng place;
     GooglePlace.rating := rating;
     GooglePlace.user_ratings_total := total;
     GooglePlace.vicinity := GooglePlace.vicinity place;
     GooglePlace.photos := GooglePlace.photos place;
     GooglePlace.open_now := open |}.

(** What a converted place takes over from its candidate as it is. *)
Definition copiedFrom (candidate : GooglePlaceResponse) (place : Location) : Prop :=
  Loc.id place = GooglePlace.place_id candidate /\
  Loc.name place = GooglePlace.name candidate /\
  Loc.latitude place = GooglePlace.lat candidate /\
  Loc.longitude place = GooglePlace.lng candidate /\
  Loc.category place = "heritage" /\
  Loc.googlePlacesData place
  = {| Loc.rating := GooglePlace.rating candidate;
       Loc.userRatingsTotal := GooglePlace.user_ratings_total candidate;
       Loc.businessStatus := GooglePlace.business_status candidate;
       Loc.openNow := GooglePlace.open_now candidate;
       Loc.types := GooglePlace.types candidate;
       Loc.formattedAddress := GooglePlace.formatted_address candidate;
       Loc.vicinity := GooglePlace.vicinity candidate |}.

(* ================================================================== *)
(** * The other entry points *)
(* ================================================================== *)

(** A request with its method and body, as the calls below make them. *)
Record HttpRequest := {
  httpMethod : string;
  httpUrl : string;
  httpHeaders : list (string * string);
  httpBody : option string
}.

(** Computations that thread the list of the requests made, of whatever
    kind [R] the requests are, and complete normally or throw. *)
Section Effects.

Context {R : Type}.

Definition Eff (A : Type) : Type := list R -> list R * Completion A.

Definition pure {A} (a : A) : Eff A := fun log => (log, Normal a).

Definition raise {A} (reason : string) : Eff A := fun log => (log, Throw reason).

Definition andThen {A B} (m : Eff A) (k : A -> Eff B) : Eff B :=
  fun log =>
    match m log with
    | (log', Normal a) => k a log'
    | (log', Throw reason) => (log', Throw reason)
    end.

(** [try { m } catch (e) { handler e }] *)
Definition attempt {A} (m : Eff A) (handler : string -> Eff A) : Eff A :=
  fun log =>
    match m log with
    | (log', Normal a) => (log', Normal a)
    | (log', Throw reason) => handler reason log'
    end.

(** [await fetch(...)] against a network of answers of kind [S]. *)
Definition perform {S} (network : list R -> R -> Completion S) (request : R) : Eff S :=
  fun log => ((log ++ [request])%list, network log request).

Definition settle {A} (c : Completion A) : Eff A := fun log => (log, c).

End Effects.

(** [JSON.stringify] on strings and numbers. *)
Module JSJson.

Definition quote : string := String (ascii_of_nat 34) EmptyString.
Definition backslash : string := String (ascii_of_nat 92) EmptyString.

(** A key or a string between quotes. *)
Definition q (s : string) : string := quote ++ s ++ quote.

(** Four lower-case hexadecimal digits. *)
Definition hex4 (n : nat) : string :=
  let digit (d : nat) := ascii_of_nat (if Nat.ltb d 10 then 48 + d else 87 + d)%nat in
  String "0" (String "0" (String (digit (n / 16)%nat)
                                 (String (digit (n mod 16)%nat) EmptyString))).

(** One character of a string in JSON text. *)
Definition escape (c : ascii) : string :=
  let n := nat_of_ascii c in
  if Nat.eqb n 34 then backslash ++ quote
  else if Nat.eqb n 92 then backslash ++ backslash
  else if Nat.eqb n 8 then backslash ++ "b"
  else if Nat.eqb n 12 then backslash ++ "f"
  else if Nat.eqb n 10 then backslash ++ "n"
  else if Nat.eqb n 13 then backslash ++ "r"
  else if Nat.eqb n 9 then backslash ++ "t"
  else if Nat.ltb n 32 then backslash ++ "u" ++ hex4 n
  else String c EmptyString.

Fixpoint escapeAll (s : string) : string :=
  match s with
  | EmptyString => EmptyString
  | String c s' => escape c ++ escapeAll s'
  end.

(** [JSON.stringify(s)] for a string. *)
Definition stringifyString (s : string) : string := quote ++ escapeAll s ++ quote.

(** [JSON.stringify(x)] for a number: [null] when it is not finite. *)
Definition stringifyNumber (host_toString : float -> string) (x : float) : string :=
  if isFinite x then JSNumber.toString host_toString x else "null".

End JSJson.

(* ---------------------------------------------------------------- *)
(** ** [fetchHistoricPlacesFromBackend] of [googlePlacesApi.ts] *)

(** The answer of the application's own backend; its body is read at the
    type the code declares for it, [Location[]]. *)
Record BackendResponse := {
  backendOk : bool;
  backendStatus : float;
  backendJson : Completion (list Location)
}.

Section Backend.

Variable host_toString : float -> string.
Variable backend : list HttpRequest -> HttpRequest -> Completion BackendResponse.

(** [JSON.stringify({ latitude, longitude, radius: 50000 })] *)
Definition backendBody (latitude longitude : float) : string :=
  "{" ++ JSJson.q "latitude" ++ ":" ++ JSJson.stringifyNumber host_toString latitude ++ ","
      ++ JSJson.q "longitude" ++ ":" ++ JSJson.stringifyNumber host_toString longitude ++ ","
      ++ JSJson.q "radius" ++ ":" ++ JSJson.stringifyNumber host_toString 50000 ++ "}".

Definition backendRequest (latitude longitude : float) : HttpRequest :=
  {| httpMethod := "POST";
     httpUrl := "/api/places/historic";
     httpHeaders := [("Content-Type", "application/json")];
     httpBody := Some (backendBody latitude longitude) |}.

(** The body of the [try]: the same in both files that define the
    function. *)
Definition askBackend (latitude longitude : float) : Eff (list Location) :=
  andThen (perform backend (backendRequest latitude longitude)) (fun response =>
  if negb (backendOk response)
  then raise ("HTTP error! status: " ++ JSNumber.toString host_toString (backendStatus response))
  else andThen (settle (backendJson response)) (fun data => pure data)).

(** In [googlePlacesApi.ts] a failure gives the fallback places. *)
Definition fetchHistoricPlacesFromBackend (latitude longitude : float)
  : Eff (list Location) :=
  attempt (askBackend latitude longitude)
          (fun _ => pure (getFallbackHistoricPlaces latitude longitude)).

End Backend.

(* ---------------------------------------------------------------- *)
(** ** The service file for the backend (the server-side variant) *)

(** The places this file builds: a [Location] without Google's data. *)
Module BasicLoc.
Record t := {
  id : string;
  name : string;
  description : string;
  latitude : float;
  longitude : float;
  imageUrl : string;
  audioUrl : option string;
  audioTitle : option string;
  audioDuration : option string;
  category : string;
  distance : string
}.
End BasicLoc.
Definition BasicLocation : Type := BasicLoc.t.

(** [a || b]: [a] when it is truthy. *)
Definition orElse (a : option string) (b : string) : string :=
  match a with
  | Some s => if JSString.truthy s then s else b
  | None => b
  end.

(** An optional string in a template literal. *)
Definition interpolate (o : option string) : string :=
  match o with
  | Some s => s
  | None => "undefined"
  end.

Module BackendService.

Section Server.

Variable Math_sin Math_cos : float -> float.
Variable Math_atan2 : float -> float -> float.
Variable host_toString : float -> string.
Variable GOOGLE_PLACES_API_KEY : option string.
Variable network : list Request -> Request -> Completion Response.

Definition convertGooglePlaceToLocation
    (place : GooglePlaceResponse) (userLat userLng : float) : BasicLocation :=
  let distance :=
    calculateDistance Math_sin Math_cos Math_atan2 userLat userLng
                      (GooglePlace.lat place) (GooglePlace.lng place) in
  {| BasicLoc.id := GooglePlace.place_id place;
     BasicLoc.name := GooglePlace.name place;
     BasicLoc.description :=
       orElse (GooglePlace.formatted_address place)
              (orElse (GooglePlace.vicinity place)
                      "Historic location discovered via Google Places");
     BasicLoc.latitude := GooglePlace.lat place;
     BasicLoc.longitude := GooglePlace.lng place;
     BasicLoc.imageUrl :=
       match GooglePlace.photos place with
       | Some (photo :: _) =>
           "https://maps.googleapis.com/maps/api/place/photo?maxwidth=400&photoreference="
             ++ GooglePlace.photo_reference photo ++ "&key="
             ++ interpolate GOOGLE_PLACES_API_KEY
       | _ => "https://images.unsplash.com/photo-1578662996442-48f60103fc96?w=400&h=300&fit=crop"
       end;
     BasicLoc.audioUrl := None;
     BasicLoc.audioTitle := None;
     BasicLoc.audioDuration := None;
     BasicLoc.category := "heritage";
     BasicLoc.distance := formatDistance host_toString distance |}.

(** The provider is asked directly, once; whatever goes wrong gives the
    empty list. *)
Definition fetchHistoricPlacesFromGoogleServer
    (latitude longitude : float) (apiKey : string) : Eff (list BasicLocation) :=
  attempt
    (andThen
       (perform network
          {| url := targetUrl host_toString apiKey latitude longitude; headers := [] |})
       (fun response =>
          if negb (ok response)
          then raise ("HTTP error! status: "
                        ++ JSNumber.toString host_toString (http_status response))
          else
            match body response with
            | NotJson => raise "SyntaxError"
            | OtherJson => raise "TypeError"
            | Wrapper _ _ => pure []
            | Direct data =>
                if negb (String.eqb (status data) "OK") then pure []
                else
                  let historicPlaces := filter isHistoric (results data) in
                  pure (map (fun place =>
                               convertGooglePlaceToLocation place latitude longitude)
                            historicPlaces)
            end))
    (fun _ => pure []).

End Server.

(** In this file a failure of the backend call gives the empty list. *)
Definition fetchHistoricPlacesFromBackend
    (host_toString : float -> string)
    (backend : list HttpRequest -> HttpRequest -> Completion BackendResponse)
    (latitude longitude : float) : Eff (list Location) :=
  attempt (askBackend host_toString backend latitude longitude) (fun _ => pure []).

End BackendService.

(* ---------------------------------------------------------------- *)
(** ** [azureOpenAI.ts]: the historical insights *)

Module KeyLocation.
Record t := { name : string; description : string }.
End KeyLocation.

Module Engagement.
Record t := { title : string; description : string; year : string; type : string }.
End Engagement.

Module Opportunity.
Record t := { title : string; description : string; type : string; link : string }.
End Opportunity.

(** [interface HistoricalInsights], as the objects of the file show it. *)
Module Insights.
Record t := {
  landmark : string;
  keyLocations : list KeyLocation.t;
  civicEngagements : list Engagement.t;
  currentOpportunities : list Opportunity.t
}.
End Insights.
Definition HistoricalInsights : Type := Insights.t.

(** The data for Charminar. *)
Definition charminarInsights (landmarkName : string) : HistoricalInsights :=
  {| Insights.landmark := landmarkName;
     Insights.keyLocations :=
       [ {| KeyLocation.name := "Four Grand Arches";
            KeyLocation.description := "The iconic four arches facing different directions, each leading to major streets of the old city" |};
         {| KeyLocation.name := "Central Mosque";
            KeyLocation.description := "The mosque located on the upper floor of the monument, still used for daily prayers" |};
         {| KeyLocation.name := "Clock Tower";
            KeyLocation.description := "The historic clock that has been keeping time for centuries" |};
         {| KeyLocation.name := "Laad Bazaar";
            KeyLocation.description := "Traditional market street famous for bangles and jewelry, located near the monument" |} ];
     Insights.civicEngagements :=
       [ {| Engagement.title := "Freedom Movement Gatherings";
            Engagement.description := "Historic protests and independence movement meetings held at this symbolic location";
            Engagement.year := "1940s";
            Engagement.type := "protest" |};
         {| Engagement.title := "Cultural Heritage Preservation Campaign";
            Engagement.description := "Community-led initiatives to preserve and restore the monument's architectural integrity";
            Engagement.year := "1990s-2000s";
            Engagement.type := "cultural" |};
         {| Engagement.title := "Old City Development Programs";
            Engagement.description := "Government and citizen collaboration for urban development while preserving heritage";
            Engagement.year := "2010s";
            Engagement.type := "development" |} ];
     Insights.currentOpportunities :=
       [ {| Opportunity.title := "Heritage Walk Volunteer Program";
            Opportunity.description := "Guide visitors through the historic significance of Charminar and surrounding areas";
            Opportunity.type := "volunteer";
            Opportunity.link := "Visit Telangana Tourism website for applications" |};
         {| Opportunity.title := "Monument Conservation Fund";
            Opportunity.description := "Contribute to ongoing restoration and maintenance efforts";
            Opportunity.type := "petition";
            Opportunity.link := "Available through Archaeological Survey of India" |};
         {| Opportunity.title := "Cultural Documentation Project";
            Opportunity.description := "Help document stories and traditions of the old city community";
            Opportunity.type := "event";
            Opportunity.link := "Contact local heritage societies" |} ] |}.

(** The data for any other heritage site. *)
Definition genericInsights (landmarkName : string) : HistoricalInsights :=
  {| Insights.landmark := landmarkName;
     Insights.keyLocations :=
       [ {| KeyLocation.name := "Main Heritage Structure";
            KeyLocation.description := "The primary architectural feature of this historic site" |};
         {| KeyLocation.name := "Visitor Information Center";
            KeyLocation.description := "Information desk and orientation area for tourists and researchers" |};
         {| KeyLocation.name := "Historical Exhibits";
            KeyLocation.description := "Displays showcasing the cultural and historical significance" |};
         {| KeyLocation.name := "Heritage Gardens";
            KeyLocation.description := "Landscaped areas reflecting the traditional design elements" |} ];
     Insights.civicEngagements :=
       [ {| Engagement.title := "Heritage Conservation Movement";
            Engagement.description := "Community efforts to preserve and protect this historic site";
            Engagement.year := "Various periods";
            Engagement.type := "cultural" |};
         {| Engagement.title := "Educational Initiatives";
            Engagement.description := "Programs to educate the public about historical significance";
            Engagement.year := "Ongoing";
            Engagement.type := "education" |} ];
     Insights.currentOpportunities :=
       [ {| Opportunity.title := "Heritage Site Volunteer";
            Opportunity.description := "Assist with maintenance, tours, and visitor services";
            Opportunity.type := "volunteer";
            Opportunity.link := "Contact site management" |};
         {| Opportunity.title := "Heritage Documentation Project";
            Opportunity.description := "Help document and preserve the history of this site";
            Opportunity.type := "volunteer";
            Opportunity.link := "Contact local heritage organizations" |} ] |}.

(** Fallback data for when Azure OpenAI is not available. *)
Definition getFallbackHistoricalInsights (landmarkName : string) : HistoricalInsights :=
  let isCharminar := JSString.includes (JSString.toLowerCase landmarkName) "charminar" in
  if isCharminar then charminarInsights landmarkName else genericInsights landmarkName.

(** The lines of the prompt, the last of which the landmark's name
    completes. *)
Definition promptLines : list string :=
  [ "You are a civic historian and engagement strategist. I will give you the name of a historic site or landmark, and you will return:";
    EmptyString;
    "1. A list of key locations or structures found within or around that site.";
    "2. A list of civic engagements, historical events, or community movements associated with that place.";
    "3. A list of current civic engagement opportunities at or related to that location, such as volunteering, signing petitions, attending events, or participating in educational programs.";
    EmptyString;
    "These should include architectural highlights, functional areas, and culturally significant spots, as well as democratic milestones, public protests, cultural gatherings, educational initiatives, or government programs that reflect civic participation.";
    EmptyString;
    "Please return the output in the following JSON format:";
    EmptyString;
    "{";
    "  " ++ JSJson.q "landmark" ++ ": " ++ JSJson.q "<Landmark Name>" ++ ",";
    "  " ++ JSJson.q "keyLocations" ++ ": [";
    "    {";
    "      " ++ JSJson.q "name" ++ ": " ++ JSJson.q "<Location Name>" ++ ",";
    "      " ++ JSJson.q "description" ++ ": " ++ JSJson.q "<Brief description of the location>";
    "    }";
    "  ],";
    "  " ++ JSJson.q "civicEngagements" ++ ": [";
    "    {";
    "      " ++ JSJson.q "title" ++ ": " ++ JSJson.q "<Event or Initiative Name>" ++ ",";
    "      " ++ JSJson.q "description" ++ ": " ++ JSJson.q "<Brief description of the civic engagement>" ++ ",";
    "      " ++ JSJson.q "year" ++ ": " ++ JSJson.q "<Year or time period>" ++ ",";
    "      " ++ JSJson.q "type" ++ ": " ++ JSJson.q "<Type: protest, election, education, cultural, etc.>";
    "    }";
    "  ],";
    "  " ++ JSJson.q "currentOpportunities" ++ ": [";
    "    {";
    "      " ++ JSJson.q "title" ++ ": " ++ JSJson.q "<Opportunity Name>" ++ ",";
    "      " ++ JSJson.q "description" ++ ": " ++ JSJson.q "<Brief description of the opportunity>" ++ ",";
    "      " ++ JSJson.q "type" ++ ": " ++ JSJson.q "<Type: volunteer, petition, event, etc.>" ++ ",";
    "      " ++ JSJson.q "link" ++ ": " ++ JSJson.q "<URL or source if available>";
    "    }";
    "  ]";
    "}";
    EmptyString;
    "Now, here is the input: " ].

Definition newline : string := String (ascii_of_nat 10) EmptyString.

Fixpoint joinLines (lines : list string) : string :=
  match lines with
  | [] => EmptyString
  | [line] => line
  | line :: rest => line ++ newline ++ joinLines rest
  end.

Definition prompt (landmarkName : string) : string :=
  joinLines promptLines ++ landmarkName.

(** The content of a chat message: a text, [null], or none at all. *)
Inductive ChatContent : Type :=
| ContentText (text : string)
| ContentNull
| ContentMissing.

(** [data.choices[0]]: its message, when it has one. *)
Record ChatChoice := { message : option ChatContent }.

(** The body of the answer of the chat service, as [response.json()]
    yields it: not JSON; [null], on which reading [choices] throws; or an
    object, with its [choices] when it has any. *)
Inductive ChatBody : Type :=
| ChatNotJson
| ChatNull
| ChatObject (choices : option (list ChatChoice)).

Record ChatResponse := {
  chatOk : bool;
  chatStatus : float;
  chatBody : ChatBody
}.

Section AzureOpenAI.

(** The configuration read from the process environment when the module
    is loaded, the printing of numbers and the parsing of JSON by the host
    ([None] is a content that parses to [null]), and the service. *)
Variable AZURE_OPENAI_ENDPOINT AZURE_OPENAI_API_KEY DEPLOYMENT_NAME : option string.
Variable host_toString : float -> string.
Variable JSON_parse : string -> Completion (option HistoricalInsights).
Variable service : list HttpRequest -> HttpRequest -> Completion ChatResponse.

(** [JSON.stringify] of the request object. *)
Definition chatBodyText (landmarkName : string) : string :=
  "{" ++ JSJson.q "messages" ++ ":[{" ++ JSJson.q "role" ++ ":" ++ JSJson.q "user" ++ ","
      ++ JSJson.q "content" ++ ":" ++ JSJson.stringifyString (prompt landmarkName) ++ "}],"
      ++ JSJson.q "max_tokens" ++ ":" ++ JSJson.stringifyNumber host_toString 2000 ++ ","
      ++ JSJson.q "temperature" ++ ":" ++ JSJson.stringifyNumber host_toString 0.7 ++ ","
      ++ JSJson.q "top_p" ++ ":" ++ JSJson.stringifyNumber host_toString 0.95 ++ ","
      ++ JSJson.q "frequency_penalty" ++ ":" ++ JSJson.stringifyNumber host_toString 0 ++ ","
      ++ JSJson.q "presence_penalty" ++ ":" ++ JSJson.stringifyNumber host_toString 0 ++ "}".

Definition chatRequest (endpoint apiKey deployment landmarkName : string) : HttpRequest :=
  {| httpMethod := "POST";
     httpUrl := endpoint ++ "/openai/deployments/" ++ deployment
                  ++ "/chat/completions?api-version=2024-02-15-preview";
     httpHeaders := [("Content-Type", "application/json"); ("api-key", apiKey)];
     httpBody := Some (chatBodyText landmarkName) |}.

(** [JSON.parse(content)]: [null] parses to [null], and [undefined] does
    not parse. *)
Definition parseContent (content : ChatContent) : Completion (option HistoricalInsights) :=
  match content with
  | ContentText text => JSON_parse text
  | ContentNull => Normal None
  | ContentMissing => Throw "SyntaxError"
  end.

(** The result is [HistoricalInsights | null]: [None] is [null]. *)
Definition fetchHistoricalInsights (landmarkName : string)
  : Eff (option HistoricalInsights) :=
  if (negb (truthy_opt AZURE_OPENAI_ENDPOINT) || negb (truthy_opt AZURE_OPENAI_API_KEY)
      || negb (truthy_opt DEPLOYMENT_NAME))%bool
  then pure (Some (getFallbackHistoricalInsights landmarkName))
  else
    attempt
      (andThen
         (perform service
            (chatRequest (interpolate AZURE_OPENAI_ENDPOINT) (interpolate AZURE_OPENAI_API_KEY)
                         (interpolate DEPLOYMENT_NAME) landmarkName))
         (fun response =>
            if negb (chatOk response)
            then pure (Some (getFallbackHistoricalInsights landmarkName))
            else
              match chatBody response with
              | ChatNotJson => raise "SyntaxError"
              | ChatNull => raise "TypeError"
              | ChatObject (Some ({| message := Some content |} :: _)) =>
                  attempt (andThen (settle (parseContent content))
                                   (fun insights => pure insights))
                          (fun _ => pure (Some (getFallbackHistoricalInsights landmarkName)))
              | ChatObject _ =>
                  pure (Some (getFallbackHistoricalInsights landmarkName))
              end))
      (fun _ => pure (Some (getFallbackHistoricalInsights landmarkName))).

End AzureOpenAI.

(* ---------------------------------------------------------------- *)
(** ** The home screen: loading the places and dropping pins *)

(** [x.toFixed(digits)] for any number of digits. *)
Module JSFixed.

Fixpoint zeros (n : nat) : string :=
  match n with
  | O => EmptyString
  | S n' => String "0" (zeros n')
  end.

(** [digits] characters, zeros in front. *)
Definition padStart (digits : nat) (s : string) : string :=
  zeros (digits - String.length s) ++ s.

(** The integer [n] for which [n / 10^digits - m * 2^e] is closest to
    zero, the larger one when there are two. *)
Definition nearest (digits : nat) (m : positive) (e : Z) : Z :=
  if (0 <=? e)%Z then (10 ^ Z.of_nat digits * Z.pos m * 2 ^ e)%Z
  else ((2 * 10 ^ Z.of_nat digits * Z.pos m + 2 ^ (- e)) / 2 ^ (1 - e))%Z.

Definition fraction (digits : nat) (n : Z) : string :=
  match digits with
  | O => EmptyString
  | _ => "." ++ padStart digits (JSNumber.decimal (n mod 10 ^ Z.of_nat digits))
  end.

Definition toFixed (host_toString : float -> string) (digits : nat) (x : float) : string :=
  match Prim2SF x with
  | S754_nan => "NaN"
  | S754_infinity s => if s then "-Infinity" else "Infinity"
  | S754_zero _ => "0" ++ fraction digits 0
  | S754_finite s m e =>
      if JSNumber.at_least_1e21 m e then host_toString x
      else
        let n := nearest digits m e in
        (if s then "-" else EmptyString)
          ++ JSNumber.decimal (n / 10 ^ Z.of_nat digits) ++ fraction digits n
  end.

End JSFixed.

Module HomeScreen.

(** [interface DroppedPin]; a [Date] is its time in milliseconds. *)
Record DroppedPin := {
  pinId : string;
  pinLatitude : float;
  pinLongitude : float;
  timestamp : float;
  note : option string
}.

(** The state of the component that the functions below read and set. *)
Record State := {
  historicPlaces : list Location;
  loadingPlaces : bool;
  droppedPins : list DroppedPin;
  pinDropMode : bool
}.

Definition setHistoricPlaces (places : list Location) (s : State) : State :=
  {| historicPlaces := places; loadingPlaces := loadingPlaces s;
     droppedPins := droppedPins s; pinDropMode := pinDropMode s |}.

Definition setLoadingPlaces (loading : bool) (s : State) : State :=
  {| historicPlaces := historicPlaces s; loadingPlaces := loading;
     droppedPins := droppedPins s; pinDropMode := pinDropMode s |}.

Definition setDroppedPins (update : list DroppedPin -> list DroppedPin) (s : State) : State :=
  {| historicPlaces := historicPlaces s; loadingPlaces := loadingPlaces s;
     droppedPins := update (droppedPins s); pinDropMode := pinDropMode s |}.

Definition setPinDropMode (mode : bool) (s : State) : State :=
  {| historicPlaces := historicPlaces s; loadingPlaces := loadingPlaces s;
     droppedPins := droppedPins s; pinDropMode := mode |}.

Section Component.

Variable Math_sin Math_cos : float -> float.
Variable Math_atan2 : float -> float -> float.
Variable host_toString : float -> string.
Variable REACT_APP_GOOGLE_PLACES_API_KEY : option string.
Variable network : list Request -> Request -> Completion Response.

(** The dates as the locale of the host prints them. *)
Variable toLocaleDateString toLocaleTimeString : float -> string.

(** [loadHistoricPlaces]: the requests made, the state while the call is
    awaited and the state once it is over. *)
Definition loadHistoricPlaces (latitude longitude : float) (s : State)
  : list Request * (State * State) :=
  let loading := setLoadingPlaces true s in
  match fetchHistoricPlacesWithCORS Math_sin Math_cos Math_atan2 host_toString
          REACT_APP_GOOGLE_PLACES_API_KEY network latitude longitude [] with
  | (log, Normal fetchedPlaces) =>
      (log, (loading, setLoadingPlaces false (setHistoricPlaces fetchedPlaces loading)))
  | (log, Throw _) =>
      let fallbackPlaces := getFallbackHistoricPlaces latitude longitude in
      (log, (loading, setLoadingPlaces false (setHistoricPlaces fallbackPlaces loading)))
  end.

(** The [Location] shown for a pin. *)
Definition pinLocation (id : string) (lat lng time : float) (distance : string)
  : BasicLocation :=
  {| BasicLoc.id := id;
     BasicLoc.name := "My Dropped Pin";
     BasicLoc.description :=
       "Pin dropped on " ++ toLocaleDateString time ++ " at " ++ toLocaleTimeString time
         ++ ". Coordinates: " ++ JSFixed.toFixed host_toString 6 lat ++ ", "
         ++ JSFixed.toFixed host_toString 6 lng;
     BasicLoc.latitude := lat;
     BasicLoc.longitude := lng;
     BasicLoc.imageUrl :=
       "https://images.unsplash.com/photo-1506905925346-21bda4d32df4?w=800&h=600&fit=crop";
     BasicLoc.audioUrl := None;
     BasicLoc.audioTitle := None;
     BasicLoc.audioDuration := None;
     BasicLoc.category := "other";
     BasicLoc.distance := distance |}.

(** [handleMapClick]: [created] is the time read by [new Date()] and [now]
    the time read by [Date.now()] right after; the result is the new state
    and the location handed to [onLocationSelect], if any. *)
Definition handleMapClick (created now : float) (lat lng : float) (s : State)
  : State * option BasicLocation :=
  if pinDropMode s then
    let newPin :=
      {| pinId := "pin-" ++ JSNumber.toString host_toString now;
         pinLatitude := lat;
         pinLongitude := lng;
         timestamp := created;
         note := None |} in
    (setPinDropMode false (setDroppedPins (fun prev => prev ++ [newPin])%list s),
     Some (pinLocation (pinId newPin) lat lng created "Just dropped"))
  else (s, None).

Definition togglePinDropMode (s : State) : State :=
  setPinDropMode (negb (pinDropMode s)) s.

Definition removePin (id : string) (s : State) : State :=
  setDroppedPins (filter (fun pin => negb (String.eqb (pinId pin) id))) s.

(** [handlePinClick]: the location handed to [onLocationSelect]. *)
Definition handlePinClick (pin : DroppedPin) : BasicLocation :=
  pinLocation (pinId pin) (pinLatitude pin) (pinLongitude pin) (timestamp pin)
              ("Dropped " ++ toLocaleDateString (timestamp pin)).

(** [MapClickHandler]: a click on the map reaches [onMapClick] only in
    the pin mode. *)
Definition MapClickHandler (created now : float) (lat lng : float) (s : State)
  : State * option BasicLocation :=
  if pinDropMode s then handleMapClick created now lat lng s else (s, None).

(** What the user does on the screen: a click on the map, on the pin
    button, or on the remove button of a pin. *)
Inductive Event : Type :=
| MapClick (created now lat lng : float)
| PinButton
| RemoveButton (id : string).

Definition isPinButton (event : Event) : bool :=
  match event with
  | PinButton => true
  | _ => false
  end.

(** The state after the handler of an event has run. *)
Definition handle (s : State) (event : Event) : State :=
  match event with
  | MapClick created now lat lng => fst (MapClickHandler created now lat lng s)
  | PinButton => togglePinDropMode s
  | RemoveButton id => removePin id s
  end.

Definition handleAll (events : list Event) (s : State) : State :=
  fold_left handle events s.

End Component.

End HomeScreen.

(* ================================================================== *)
(** * The host on concrete inputs *)
(* ================================================================== *)

(** Ties go toward +infinity, and the double below one half rounds to 0. *)
Example Math_round_ties :
  (JSNumber.Math_round 2.5, JSNumber.Math_round (-2.5),
   JSNumber.Math_round 0.49999999999999994, JSNumber.Math_round 1109.73)%float
  = (3, -2, 0, 1110)%float.
Proof. reflexivity. Qed.

(** [toFixed(1)] sees the binary value: 1150 / 1000 is just below 1.15. *)
Example toFixed1_binary :
  map (JSNumber.toFixed1 TaylorHost.toString)
      [1050 / 1000; 1110 / 1000; 1150 / 1000; 1151 / 1000; - 0.04; 20015.087]%float
  = ["1.1"; "1.1"; "1.1"; "1.2"; "-0.0"; "20015.1"].
Proof. reflexivity. Qed.

Example toString_integers :
  map (JSNumber.toString TaylorHost.toString) [0; -0; 1000; -42; nan; infinity]%float
  = ["0"; "0"; "1000"; "-42"; "NaN"; "Infinity"].
Proof. reflexivity. Qed.

Example split_trim :
  JSString.split "," "Charminar Rd, Char Kaman , Hyderabad" = ["Charminar Rd"; " Char Kaman "; " Hyderabad"] /\
  JSString.trim " Char Kaman " = "Char Kaman" /\
  JSString.split "," EmptyString = [EmptyString].
Proof. repeat split. Qed.

(** The URL asked through allorigins is the target, encoded once more. *)
Example proxy_requests :
  map url (requestsOf corsProxies (targetUrl TaylorHost.toString "KEY" 17 78) 2)
  = [ "https://api.allorigins.win/get?url=https%3A%2F%2Fmaps.googleapis.com%2Fmaps%2Fapi%2Fplace%2Fnearbysearch%2Fjson%3Flocation%3D17%252C78%26radius%3D50000%26type%3Dtourist_attraction%26keyword%3Dhistoric%2Bheritage%2Bmonument%2Bmuseum%2Barchaeological%2Btemple%2Bfort%2Bpalace%26key%3DKEY";
      "https://corsproxy.io/?https://maps.googleapis.com/maps/api/place/nearbysearch/json?location=17%2C78&radius=50000&type=tourist_attraction&keyword=historic+heritage+monument+museum+archaeological+temple+fort+palace&key=KEY" ].
Proof. reflexivity. Qed.

(** Hyderabad to Delhi with the Taylor host: 1255 km. *)
Example distance_to_delhi :
  formatDistance TaylorHost.toString
    (calculateDistance TaylorHost.sin TaylorHost.cos TaylorHost.atan2
                       17.3850 78.4867 28.6139 77.2090)
  = "1255.4km".
Proof. reflexivity. Qed.

(* ================================================================== *)
(** * The walk over the proxies *)
(* ================================================================== *)

Section Walk.

Variable Math_sin Math_cos : float -> float.
Variable Math_atan2 : float -> float -> float.
Variable host_toString : float -> string.
Variable apiKey : option string.
Variable network : list Request -> Request -> Completion Response.
Variable latitude longitude : float.

Let convert (data : GooglePlacesApiResponse) : list Location :=
  map (fun place =>
         convertGooglePlaceToLocation Math_sin Math_cos Math_atan2 host_toString apiKey
                                      place latitude longitude)
      (filterHistoricPlaces (results data)).

Let loop := proxyLoop Math_sin Math_cos Math_atan2 host_toString apiKey network.

(** One turn of the loop with its [catch]: one request, and the turn
    returns exactly when the path contributes data. *)
Lemma turn_spec (corsProxy target : string) (log : list Request) :
  try_catch (tryProxy Math_sin Math_cos Math_atan2 host_toString apiKey network
                      corsProxy target latitude longitude)
            (fun _ => ret Continue) log
  = ((log ++ [proxyRequest corsProxy target])%list,
     Normal match pathData corsProxy (network log (proxyRequest corsProxy target)) with
            | Some data => Return (convert data)
            | None => Continue
            end).
Proof.
  unfold try_catch, tryProxy, bind, fetch, readData, pathData, ret, throw, lift, convert.
  destruct (network log (proxyRequest corsProxy target)) as [response | reason];
    [ | reflexivity ].
  destruct (ok response); simpl; [ | reflexivity ].
  destruct (JSString.includes corsProxy "allorigins.win").
  - destruct (body response) as [ | [code | ] [data | reason] | data | ]; simpl;
      try reflexivity.
    + destruct (code =? 200)%float; simpl; [ | reflexivity ].
      destruct (String.eqb (status data) "OK"); reflexivity.
    + destruct (code =? 200)%float; reflexivity.
  - destruct (body response) as [ | code contents | data | ]; simpl; try reflexivity.
    destruct (String.eqb (status data) "OK"); reflexivity.
Qed.

(** The loop stops at the first path that contributes data, having asked
    the paths before it once each, in order; it runs to its end when no
    path does. *)
Lemma proxyLoop_spec (target : string) (proxies : list string) (log : list Request) :
  (exists k data,
      (k < List.length proxies)%nat /\
      (forall j, (j < k)%nat -> pathDataAt network log proxies target j = None) /\
      pathDataAt network log proxies target k = Some data /\
      loop proxies target latitude longitude log
      = ((log ++ requestsOf proxies target (S k))%list, Normal (Some (convert data))))
  \/
  ((forall j, (j < List.length proxies)%nat -> pathDataAt network log proxies target j = None) /\
   loop proxies target latitude longitude log
   = ((log ++ requestsOf proxies target (List.length proxies))%list, Normal None)).
Proof.
  revert log. induction proxies as [ | corsProxy rest IH ]; intro log.
  - right. split; [ intros j Hj; inversion Hj | ].
    unfold requestsOf; simpl. now rewrite app_nil_r.
  - assert (Hstep :
               loop (corsProxy :: rest) target latitude longitude log
               = match pathData corsProxy (network log (proxyRequest corsProxy target)) with
                 | Some data =>
                     ((log ++ [proxyRequest corsProxy target])%list,
                      Normal (Some (convert data)))
                 | None =>
                     loop rest target latitude longitude
                          (log ++ [proxyRequest corsProxy target])%list
                 end) by
      (unfold loop; simpl; unfold bind at 1; rewrite turn_spec;
       fold convert;
       destruct (pathData corsProxy (network log (proxyRequest corsProxy target)));
       reflexivity).
    assert (Hhead : pathDataAt network log (corsProxy :: rest) target 0
                    = pathData corsProxy (network log (proxyRequest corsProxy target))) by
      (unfold pathDataAt, requestsOf; simpl; now rewrite app_nil_r).
    assert (Htail : forall j,
               pathDataAt network log (corsProxy :: rest) target (S j)
               = pathDataAt network (log ++ [proxyRequest corsProxy target]) rest target j) by
      (intro j; unfold pathDataAt, requestsOf; simpl; now rewrite <- app_assoc).
    destruct (pathData corsProxy (network log (proxyRequest corsProxy target)))
      as [data | ] eqn:Hpath.
    + left. exists 0%nat, data. repeat split.
      * simpl; lia.
      * intros j Hj; inversion Hj.
      * exact Hhead.
      * exact Hstep.
    + destruct (IH (log ++ [proxyRequest corsProxy target])%list)
        as [(k & data & Hk & Hfail & Hok & Hrun) | (Hfail & Hrun)].
      * left. exists (S k), data. repeat split.
        -- simpl; lia.
        -- intros [ | j] Hj; [ now rewrite Hhead | rewrite Htail; apply Hfail; lia ].
        -- now rewrite Htail.
        -- rewrite Hstep, Hrun. unfold requestsOf; simpl. now rewrite <- app_assoc.
      * right. split.
        -- intros [ | j] Hj; [ now rewrite Hhead | rewrite Htail; apply Hfail; simpl in Hj; lia ].
        -- rewrite Hstep, Hrun. unfold requestsOf; simpl. now rewrite <- app_assoc.
Qed.

End Walk.

(** The ways a path fails: the transport, a refused status, a body that is
    not JSON or has another shape, a wrapper whose code is not 200 or whose
    contents do not parse, a provider status other than OK. *)
Lemma path_failures (corsProxy : string) (response : Response) :
  (forall reason, pathData corsProxy (Throw reason) = None) /\
  (ok response = false -> pathData corsProxy (Normal response) = None) /\
  (body response = NotJson -> pathData corsProxy (Normal response) = None) /\
  (body response = OtherJson -> pathData corsProxy (Normal response) = None) /\
  (forall code contents,
      body response = Wrapper code contents ->
      (forall c, code = Some c -> (c =? 200)%float = false) ->
      pathData corsProxy (Normal response) = None) /\
  (forall code reason,
      body response = Wrapper code (Throw reason) ->
      pathData corsProxy (Normal response) = None) /\
  (forall data,
      body response = Direct data -> String.eqb (status data) "OK" = false ->
      pathData corsProxy (Normal response) = None).
Proof.
  unfold pathData. repeat split.
  - intros ->. reflexivity.
  - intros ->. destruct (ok response), (JSString.includes corsProxy "allorigins.win");
      reflexivity.
  - intros ->. destruct (ok response), (JSString.includes corsProxy "allorigins.win");
      reflexivity.
  - intros code contents -> Hcode.
    destruct (ok response), (JSString.includes corsProxy "allorigins.win");
      try reflexivity.
    destruct code as [c | ]; [ | reflexivity ].
    rewrite (Hcode c eq_refl). now destruct contents.
  - intros code reason ->.
    destruct (ok response), (JSString.includes corsProxy "allorigins.win");
      try reflexivity.
    now destruct code.
  - intros data -> Hstatus.
    destruct (ok response), (JSString.includes corsProxy "allorigins.win");
      try reflexivity.
    simpl. now rewrite Hstatus.
Qed.

(* ================================================================== *)
(** * Facts of binary64 arithmetic *)
(* ================================================================== *)

Module FloatFacts.
Local Open Scope float_scope.

(** Subtracting is adding the opposite. *)
Lemma sub_add_opp (x y : float) : x - y = x + (- y).
Proof.
  apply Prim2SF_inj. rewrite sub_spec, add_spec, opp_spec.
  destruct (Prim2SF x) as [sx | sx | | sx mx ex], (Prim2SF y) as [sy | sy | | sy my ey];
    try reflexivity; destruct sx, sy; reflexivity.
Qed.

(** The sign of a rounded result is the sign it was given. *)
Lemma binary_round_aux_opp (s : bool) (m e : Z) (l : location) :
  binary_round_aux prec emax (negb s) m e l = SFopp (binary_round_aux prec emax s m e l).
Proof.
  unfold binary_round_aux.
  destruct (shr_fexp prec emax m e l) as [mrs' e'].
  destruct (shr_fexp prec emax _ e' loc_Exact) as [mrs'' e''].
  destruct (shr_m mrs''); try reflexivity.
  destruct (e'' <=? emax - prec)%Z; reflexivity.
Qed.

Lemma binary_round_opp (s : bool) (m : positive) (e : Z) :
  binary_round prec emax (negb s) m e = SFopp (binary_round prec emax s m e).
Proof.
  unfold binary_round.
  destruct (shl_align m e _) as [mz ez]. apply binary_round_aux_opp.
Qed.

Lemma opp_involutive (x : float) : - - x = x.
Proof.
  apply Prim2SF_inj. rewrite !opp_spec.
  destruct (Prim2SF x) as [s | s | | s m e]; simpl; now rewrite ?negb_involutive.
Qed.

Lemma mul_comm (x y : float) : x * y = y * x.
Proof.
  apply Prim2SF_inj. rewrite !mul_spec.
  destruct (Prim2SF x) as [sx | sx | | sx mx ex], (Prim2SF y) as [sy | sy | | sy my ey];
    simpl; try reflexivity; try (now rewrite xorb_comm).
  now rewrite xorb_comm, Pos.mul_comm, Z.add_comm.
Qed.

Lemma mul_opp_l (x y : float) : (- x) * y = - (x * y).
Proof.
  apply Prim2SF_inj. rewrite opp_spec, !mul_spec, opp_spec.
  destruct (Prim2SF x) as [sx | sx | | sx mx ex], (Prim2SF y) as [sy | sy | | sy my ey];
    simpl; try reflexivity; try (now destruct sx, sy).
  rewrite <- binary_round_aux_opp. now destruct sx, sy.
Qed.

Lemma mul_opp_r (x y : float) : x * (- y) = - (x * y).
Proof. now rewrite mul_comm, mul_opp_l, mul_comm. Qed.

Lemma mul_opp_opp (x y : float) : (- x) * (- y) = x * y.
Proof. now rewrite mul_opp_l, mul_opp_r, opp_involutive. Qed.

Lemma div_opp_l (x y : float) : (- x) / y = - (x / y).
Proof.
  apply Prim2SF_inj. rewrite opp_spec, !div_spec, opp_spec.
  destruct (Prim2SF x) as [sx | sx | | sx mx ex], (Prim2SF y) as [sy | sy | | sy my ey];
    simpl; try reflexivity; try (now destruct sx, sy).
  destruct (SFdiv_core_binary prec emax (Z.pos mx) ex (Z.pos my) ey) as [[mz ez] lz].
  rewrite <- binary_round_aux_opp. now destruct sx, sy.
Qed.

(** Swapping the operands of a subtraction changes the sign of the
    difference, or nothing at all (a zero or NaN difference). *)
Lemma sub_swap (x y : float) : y - x = - (x - y) \/ y - x = x - y.
Proof.
  assert (H : SF64sub (Prim2SF y) (Prim2SF x) = SFopp (SF64sub (Prim2SF x) (Prim2SF y)) \/
              SF64sub (Prim2SF y) (Prim2SF x) = SF64sub (Prim2SF x) (Prim2SF y)).
  { destruct (Prim2SF x) as [sx | sx | | sx mx ex], (Prim2SF y) as [sy | sy | | sy my ey];
      try (now right); try (now left); try (destruct sx, sy; (now left) || (now right)).
    unfold SF64sub, SFsub. rewrite (Z.min_comm ey ex).
    set (ez := Z.min ex ey).
    set (a := cond_Zopp sx (Z.pos (fst (shl_align mx ex ez)))).
    set (b := cond_Zopp sy (Z.pos (fst (shl_align my ey ez)))).
    replace (b - a)%Z with (- (a - b))%Z by lia.
    destruct (a - b)%Z as [ | p | p]; simpl.
    - now right.
    - left. exact (binary_round_opp false p ez).
    - left. exact (binary_round_opp true p ez). }
  destruct H as [H | H]; [ left | right ]; apply Prim2SF_inj;
    now rewrite ?opp_spec, !sub_spec.
Qed.

End FloatFacts.

(** Integers as binary64 numbers, and their quotient by 1000. *)
Module Binary64.
Local Open Scope Z_scope.

(** The number of binary digits brackets the number. *)
Lemma digits2_pos_bounds (p : positive) :
  2 ^ (Z.pos (digits2_pos p) - 1) <= Z.pos p < 2 ^ Z.pos (digits2_pos p).
Proof.
  induction p as [p IH | p IH | ]; simpl digits2_pos.
  - rewrite Pos2Z.inj_succ.
    replace (Z.succ (Z.pos (digits2_pos p)) - 1) with (Z.succ (Z.pos (digits2_pos p) - 1)) by lia.
    rewrite !Z.pow_succ_r by lia. lia.
  - rewrite Pos2Z.inj_succ.
    replace (Z.succ (Z.pos (digits2_pos p)) - 1) with (Z.succ (Z.pos (digits2_pos p) - 1)) by lia.
    rewrite !Z.pow_succ_r by lia. lia.
  - simpl. lia.
Qed.

Lemma digits2_pos_unique (p : positive) (k : Z) :
  2 ^ (k - 1) <= Z.pos p < 2 ^ k -> Z.pos (digits2_pos p) = k.
Proof.
  intros [Hlo Hhi]. pose proof (digits2_pos_bounds p) as [Hlo' Hhi'].
  assert (0 < k) by (destruct k; simpl in Hhi; lia).
  assert (k - 1 < Z.pos (digits2_pos p)) by (apply (Z.pow_lt_mono_r_iff 2); lia).
  assert (Z.pos (digits2_pos p) - 1 < k) by (apply (Z.pow_lt_mono_r_iff 2); lia).
  lia.
Qed.

(** A mantissa of 53 digits with an exponent in range is its own rounding. *)
Lemma binary_round_aux_canonical (s : bool) (m : positive) (e : Z) :
  Z.pos (digits2_pos m) = 53 -> -1074 <= e <= 971 ->
  binary_round_aux prec emax s (Z.pos m) e loc_Exact = S754_finite s m e.
Proof.
  intros Hd He.
  assert (Hshift : shr_fexp prec emax (Z.pos m) e loc_Exact
                   = ({| shr_m := Z.pos m; shr_r := false; shr_s := false |}, e)).
  { unfold shr_fexp, fexp, emin, Zdigits2. rewrite Hd.
    change prec with 53; change emax with 1024.
    replace (Z.max (53 + e - 53) (3 - 1024 - 53) - e) with 0 by lia. reflexivity. }
  assert (Hle : (e <=? emax - prec) = true) by
    (apply Z.leb_le; change prec with 53; change emax with 1024; lia).
  unfold binary_round_aux. rewrite Hshift.
  cbn [shr_m shr_r shr_s loc_of_shr_record round_nearest_even]. rewrite Hshift.
  cbn [shr_m]. now rewrite Hle.
Qed.

Lemma iter_xO (p d : positive) : Z.pos (Pos.iter xO p d) = Z.pos p * 2 ^ Z.pos d.
Proof.
  induction d as [ | d IH ] using Pos.peano_ind.
  - simpl. lia.
  - rewrite Pos.iter_succ, Pos2Z.inj_xO, IH, Pos2Z.inj_succ, Z.pow_succ_r by lia. lia.
Qed.

(** The integers below [2^53] are numbers: mantissa [m * 2^d] of 53
    digits, exponent [- d]. *)
Lemma Prim2SF_of_Z (m : Z) :
  0 < m < 2 ^ 53 ->
  exists (mz : positive) (d : Z),
    0 <= d <= 52 /\ Z.pos mz = m * 2 ^ d /\ Z.pos (digits2_pos mz) = 53 /\
    Prim2SF (JSNumber.of_Z m) = S754_finite false mz (- d).
Proof.
  intros Hm. unfold JSNumber.of_Z.
  destruct (m <? 0) eqn:Hneg; [ lia | ].
  rewrite of_uint63_spec, Uint63.of_Z_spec.
  rewrite Z.mod_small by (change Uint63.wB with (2 ^ 63); lia).
  destruct m as [ | p | p ]; try lia.
  pose proof (digits2_pos_bounds p) as Hp.
  assert (Hdp : Z.pos (digits2_pos p) <= 53).
  { destruct (Z.le_gt_cases (Z.pos (digits2_pos p)) 53) as [H | H]; [ exact H | ].
    assert (2 ^ 53 <= 2 ^ (Z.pos (digits2_pos p) - 1)) by (apply Z.pow_le_mono_r; lia).
    lia. }
  unfold binary_normalize, binary_round, shl_align, fexp, emin.
  change prec with 53; change emax with 1024.
  replace (Z.max (Z.pos (digits2_pos p) + 0 - 53) (3 - 1024 - 53) - 0)
    with (Z.pos (digits2_pos p) - 53) by lia.
  replace (Z.max (Z.pos (digits2_pos p) + 0 - 53) (3 - 1024 - 53))
    with (Z.pos (digits2_pos p) - 53) by lia.
  destruct (Z.pos (digits2_pos p) - 53) as [ | d | d ] eqn:Hd; try lia.
  - exists p, 0. repeat split; try lia.
    apply binary_round_aux_canonical; lia.
  - assert (Hmz : Z.pos (Pos.iter xO p d) = Z.pos p * 2 ^ Z.pos d) by apply iter_xO.
    assert (Hdigits : Z.pos (digits2_pos (Pos.iter xO p d)) = 53).
    { apply digits2_pos_unique. rewrite Hmz.
      replace 53 with (Z.pos (digits2_pos p) + Z.pos d) at 2 by lia.
      replace (53 - 1) with (Z.pos (digits2_pos p) - 1 + Z.pos d) by lia.
      rewrite !Z.pow_add_r by lia.
      assert (0 < 2 ^ Z.pos d) by (apply Z.pow_pos_nonneg; lia). nia. }
    exists (Pos.iter xO p d), (Z.pos d). repeat split; try lia.
    change (- Z.pos d) with (Z.neg d).
    apply binary_round_aux_canonical; lia.
Qed.

Lemma Prim2SF_of_Z_0 : Prim2SF (JSNumber.of_Z 0) = S754_zero false.
Proof. reflexivity. Qed.

(** Comparing an integer with 1000 as numbers is comparing them. *)
Lemma ltb_1000_of_Z (m : Z) :
  0 <= m < 2 ^ 53 -> (1000 <? JSNumber.of_Z m)%float = (1000 <? m).
Proof.
  intros Hm. rewrite ltb_spec.
  change (Prim2SF 1000) with (S754_finite false 8796093022208000 (-43)).
  destruct (Z.eq_dec m 0) as [-> | Hnz]; [ reflexivity | ].
  destruct (Prim2SF_of_Z m) as (mz & d & Hd & Hmz & Hdg & ->); [ lia | ].
  pose proof (digits2_pos_bounds mz) as Hb. rewrite Hdg in Hb.
  change (2 ^ (53 - 1)) with 4503599627370496 in Hb.
  change (2 ^ 53) with 9007199254740992 in Hb.
  unfold SFltb, SFcompare.
  destruct (Z.compare_spec (-43) (- d)) as [Heq | Hlt | Hgt].
  - assert (d = 43) as -> by (clear - Heq; lia).
    change (2 ^ 43) with 8796093022208 in Hmz.
    rewrite Pos.compare_cont_spec. simpl Pos.switch_Eq.
    destruct (Pos.compare_spec 8796093022208000 mz) as [H | H | H];
      symmetry; [ apply Z.ltb_ge | apply Z.ltb_lt | apply Z.ltb_ge ].
    + clear - Hmz H; subst mz; lia.
    + clear - Hmz H; apply Pos2Z.pos_lt_pos in H; lia.
    + clear - Hmz H; apply Pos2Z.pos_lt_pos in H; lia.
  - assert (2 ^ d <= 2 ^ 42) by (apply Z.pow_le_mono_r; clear - Hlt Hd; lia).
    change (2 ^ 42) with 4398046511104 in H.
    symmetry; apply Z.ltb_lt. clear - Hmz Hb H. nia.
  - assert (2 ^ 44 <= 2 ^ d) by (apply Z.pow_le_mono_r; clear - Hgt Hd; lia).
    change (2 ^ 44) with 17592186044416 in H.
    symmetry; apply Z.ltb_ge. clear - Hmz Hb H. nia.
Qed.

Lemma to_integer_of_Z (m : Z) :
  0 <= m < 2 ^ 53 -> JSNumber.to_integer (JSNumber.of_Z m) = Some m.
Proof.
  intros Hm. unfold JSNumber.to_integer.
  destruct (Z.eq_dec m 0) as [-> | Hnz]; [ reflexivity | ].
  destruct (Prim2SF_of_Z m) as (mz & d & Hd & Hmz & Hdg & ->); [ lia | ].
  rewrite Hmz, Z.opp_involutive.
  assert (0 < 2 ^ d) by (apply Z.pow_pos_nonneg; lia).
  destruct (0 <=? - d) eqn:He.
  - apply Z.leb_le in He. assert (d = 0) as -> by lia. simpl. f_equal; lia.
  - rewrite Z_mod_mult, Z_div_mult by lia. reflexivity.
Qed.

(** An integer prints as its decimal digits. *)
Lemma toString_of_Z (host_toString : float -> string) (m : Z) :
  0 <= m < 2 ^ 53 -> JSNumber.toString host_toString (JSNumber.of_Z m) = JSNumber.decimal m.
Proof.
  intros Hm. unfold JSNumber.toString. rewrite to_integer_of_Z by exact Hm.
  assert (Hsmall : (Z.abs m <? 10 ^ 21) = true) by
    (apply Z.ltb_lt; change (2 ^ 53) with 9007199254740992 in Hm;
     change (10 ^ 21) with 1000000000000000000000; lia).
  assert (Hpos : (m <? 0) = false) by (apply Z.ltb_ge; lia).
  rewrite Hsmall, Hpos, Z.abs_eq by lia.
  destruct (Z.eq_dec m 0) as [-> | Hnz]; [ reflexivity | ].
  destruct (Prim2SF_of_Z m) as (mz & d & _ & _ & _ & ->); [ lia | ]. reflexivity.
Qed.

Lemma shr_record_of_loc_m (m : Z) (l : location) : shr_m (shr_record_of_loc m l) = m.
Proof. destruct l as [ | [ | | ] ]; reflexivity. Qed.

Lemma round_nearest_even_bounds (m : Z) (l : location) :
  m <= round_nearest_even m l <= m + 1.
Proof.
  destruct l as [ | [ | | ] ]; simpl; try lia. destruct (Z.even m); lia.
Qed.

Lemma shr_1_m (r : shr_record) : 0 < shr_m r -> shr_m (shr_1 r) = shr_m r / 2.
Proof.
  destruct r as [[ | [p | p | ] | p] r s]; simpl; intro H; try lia.
  - rewrite Pos2Z.inj_xI. apply Z.div_unique with (r := 1); lia.
  - rewrite Pos2Z.inj_xO. apply Z.div_unique with (r := 0); lia.
  - reflexivity.
Qed.

(** The last step of a rounding, on a mantissa of 53 digits or on [2^53]:
    the value is kept. *)
Lemma round_finish (s : bool) (m1 e1 : Z) :
  2 ^ 52 <= m1 <= 2 ^ 53 -> -1074 <= e1 <= 900 ->
  exists (mf : positive) (ef : Z),
    (let '(mrs, e) := shr_fexp prec emax m1 e1 loc_Exact in
     match shr_m mrs with
     | Z0 => S754_zero s
     | Z.pos m => if e <=? emax - prec then S754_finite s m e else S754_infinity s
     | Z.neg _ => S754_nan
     end) = S754_finite s mf ef /\
    e1 <= ef <= e1 + 1 /\
    2 ^ 52 <= Z.pos mf < 2 ^ 53 /\
    Z.pos mf * 2 ^ (ef - e1) = m1.
Proof.
  intros Hm He.
  destruct (Z.eq_dec m1 (2 ^ 53)) as [-> | Hne].
  - exists (Z.to_pos (2 ^ 52)), (e1 + 1).
    assert (Hshift : shr_fexp prec emax (2 ^ 53) e1 loc_Exact
                     = ({| shr_m := 2 ^ 52; shr_r := false; shr_s := false |}, e1 + 1)).
    { unfold shr_fexp, fexp, emin.
      change (Zdigits2 (2 ^ 53)) with 54. change prec with 53; change emax with 1024.
      replace (Z.max (54 + e1 - 53) (3 - 1024 - 53) - e1) with 1 by lia. reflexivity. }
    rewrite Hshift. change (shr_m _) with (Z.pos (Z.to_pos (2 ^ 52))). cbv iota.
    assert (Hle : (e1 + 1 <=? emax - prec) = true) by
      (apply Z.leb_le; change prec with 53; change emax with 1024; lia).
    rewrite Hle. repeat split; try lia.
    replace (e1 + 1 - e1) with 1 by lia. reflexivity.
  - destruct m1 as [ | p | p ]; try lia.
    assert (Hd : Z.pos (digits2_pos p) = 53) by (apply digits2_pos_unique; lia).
    exists p, e1.
    assert (Hshift : shr_fexp prec emax (Z.pos p) e1 loc_Exact
                     = ({| shr_m := Z.pos p; shr_r := false; shr_s := false |}, e1)).
    { unfold shr_fexp, fexp, emin, Zdigits2. rewrite Hd.
      change prec with 53; change emax with 1024.
      replace (Z.max (53 + e1 - 53) (3 - 1024 - 53) - e1) with 0 by lia. reflexivity. }
    rewrite Hshift. cbn [shr_m].
    assert (Hle : (e1 <=? emax - prec) = true) by
      (apply Z.leb_le; change prec with 53; change emax with 1024; lia).
    rewrite Hle. repeat split; try lia.
    rewrite Z.sub_diag. lia.
Qed.

(** Rounding a quotient of 53 or 54 digits: a finite number, whose value
    is within the quotient's last digit. *)
Lemma binary_round_aux_quotient (s : bool) (q e : Z) (l : location) :
  2 ^ 52 <= q < 2 ^ 54 -> -1074 <= e <= 899 ->
  exists (mf : positive) (ef : Z),
    binary_round_aux prec emax s q e l = S754_finite s mf ef /\
    e <= ef <= e + 2 /\
    2 ^ 52 <= Z.pos mf < 2 ^ 53 /\
    q - 1 <= Z.pos mf * 2 ^ (ef - e) <= q + 2.
Proof.
  intros Hq He. unfold binary_round_aux.
  destruct q as [ | qp | qp ]; try lia.
  destruct (Z.lt_ge_cases (Z.pos qp) (2 ^ 53)) as [Hlt | Hge].
  - assert (Hd : Z.pos (digits2_pos qp) = 53) by (apply digits2_pos_unique; lia).
    assert (Hshift : shr_fexp prec emax (Z.pos qp) e l = (shr_record_of_loc (Z.pos qp) l, e)).
    { unfold shr_fexp, fexp, emin, Zdigits2. rewrite Hd.
      change prec with 53; change emax with 1024.
      replace (Z.max (53 + e - 53) (3 - 1024 - 53) - e) with 0 by lia. reflexivity. }
    rewrite Hshift, shr_record_of_loc_m.
    pose proof (round_nearest_even_bounds (Z.pos qp)
                  (loc_of_shr_record (shr_record_of_loc (Z.pos qp) l))) as Hr.
    destruct (round_finish s (round_nearest_even (Z.pos qp)
                                (loc_of_shr_record (shr_record_of_loc (Z.pos qp) l))) e)
      as (mf & ef & Heq & Hef & Hmf & Hval); try lia.
    exists mf, ef. rewrite Heq. repeat split; lia.
  - assert (Hd : Z.pos (digits2_pos qp) = 54) by (apply digits2_pos_unique; lia).
    assert (Hshift : shr_fexp prec emax (Z.pos qp) e l
                     = (shr_1 (shr_record_of_loc (Z.pos qp) l), e + 1)).
    { unfold shr_fexp, fexp, emin, Zdigits2. rewrite Hd.
      change prec with 53; change emax with 1024.
      replace (Z.max (54 + e - 53) (3 - 1024 - 53) - e) with 1 by lia. reflexivity. }
    rewrite Hshift.
    assert (Hhalf : shr_m (shr_1 (shr_record_of_loc (Z.pos qp) l)) = Z.pos qp / 2) by
      (rewrite shr_1_m; rewrite shr_record_of_loc_m; [ reflexivity | lia ]).
    rewrite Hhalf.
    set (l' := loc_of_shr_record (shr_1 (shr_record_of_loc (Z.pos qp) l))).
    pose proof (round_nearest_even_bounds (Z.pos qp / 2) l') as Hr.
    pose proof (Z.div_mod (Z.pos qp) 2 ltac:(lia)) as Hdm.
    pose proof (Z.mod_pos_bound (Z.pos qp) 2 ltac:(lia)) as Hmod.
    change (2 ^ 52) with 4503599627370496 in *.
    change (2 ^ 53) with 9007199254740992 in *.
    change (2 ^ 54) with 18014398509481984 in *.
    destruct (round_finish s (round_nearest_even (Z.pos qp / 2) l') (e + 1))
      as (mf & ef & Heq & Hef & Hmf & Hval);
      [ change (2 ^ 52) with 4503599627370496; change (2 ^ 53) with 9007199254740992; lia
      | lia | ].
    exists mf, ef. rewrite Heq.
    change (2 ^ 52) with 4503599627370496 in *.
    change (2 ^ 53) with 9007199254740992 in *.
    replace (ef - e) with (ef - (e + 1) + 1) by lia.
    rewrite Z.pow_add_r by lia. change (2 ^ 1) with 2.
    repeat split; lia.
Qed.

(** An integer divided by 1000: a positive finite number [mf * 2^ef], the
    quotient of [m * 2^E] by 1000 rounded at its last digit, where
    [E = - ef + (0, 1 or 2)]. *)
Lemma div_1000 (m : Z) :
  0 < m < 2 ^ 53 ->
  exists (mf : positive) (ef E : Z),
    Prim2SF (JSNumber.of_Z m / 1000)%float = S754_finite false mf ef /\
    10 <= E <= 62 /\ - E <= ef <= - E + 2 /\
    2 ^ 52 <= Z.pos mf < 2 ^ 53 /\
    m * 2 ^ E / 1000 - 1 <= Z.pos mf * 2 ^ (ef + E) <= m * 2 ^ E / 1000 + 2.
Proof.
  intros Hm. rewrite div_spec.
  change (Prim2SF 1000) with (S754_finite false 8796093022208000 (-43)).
  destruct (Prim2SF_of_Z m Hm) as (mz & d & Hd & Hmz & Hdg & ->).
  pose proof (digits2_pos_bounds mz) as Hb. rewrite Hdg in Hb.
  unfold SF64div, SFdiv, SFdiv_core_binary.
  cbn [Zdigits2 xorb]. rewrite Hdg.
  change (Z.pos (digits2_pos 8796093022208000)) with 53.
  unfold fexp, emin. change prec with 53; change emax with 1024.
  replace (Z.min (Z.max (53 + - d - (53 + -43) - 53) (3 - 1024 - 53)) (- d - -43))
    with (- (d + 10)) by lia.
  replace (- d - -43 - - (d + 10)) with 53 by lia.
  cbv iota.
  destruct (Z.div_eucl (Z.shiftl (Z.pos mz) 53) (Z.pos 8796093022208000)) as [q r] eqn:Hdiv.
  assert (Hq : q = Z.pos mz * 2 ^ 53 / 8796093022208000).
  { rewrite <- Z.shiftl_mul_pow2 by lia. unfold Z.div. now rewrite Hdiv. }
  assert (Hq' : q = m * 2 ^ (d + 10) / 1000).
  { rewrite Hq, Hmz.
    change 8796093022208000 with (1000 * 2 ^ 43).
    replace (m * 2 ^ d * 2 ^ 53) with (m * 2 ^ (d + 10) * 2 ^ 43) by
      (rewrite Z.pow_add_r by lia; change (2 ^ 53) with (2 ^ 10 * 2 ^ 43); ring).
    rewrite Z.div_mul_cancel_r; lia. }
  assert (Hqb : 2 ^ 52 <= q < 2 ^ 54).
  { rewrite Hq.
    change (2 ^ 52) with 4503599627370496 in *.
    change (2 ^ 53) with 9007199254740992 in *.
    change (2 ^ 54) with 18014398509481984.
    split.
    - apply Z.div_le_lower_bound; lia.
    - apply Z.div_lt_upper_bound; lia. }
  destruct (binary_round_aux_quotient false q (- (d + 10)) (new_location (Z.pos 8796093022208000) r))
    as (mf & ef & Heq & Hef & Hmf & Hval); [ exact Hqb | lia | ].
  exists mf, ef, (d + 10).
  change prec with 53 in Heq; change emax with 1024 in Heq. rewrite Heq.
  replace (ef + (d + 10)) with (ef - - (d + 10)) by lia.
  rewrite <- Hq'. repeat split; lia.
Qed.

(** The number of tenths printed for [m / 1000] is [m / 100] rounded down
    or up. *)
Lemma tenths_of_quotient (m mf c P' : Z) :
  0 < m -> 0 < mf -> 0 < P' -> (c = 1 \/ c = 2 \/ c = 4) -> 1024 <= c * P' ->
  m * (c * P') / 1000 - 1 <= mf * c <= m * (c * P') / 1000 + 2 ->
  m / 100 <= (20 * mf + P') / (2 * P') <= m / 100 + 1.
Proof.
  intros Hm Hmf HP' Hc HP Hval.
  set (P := c * P') in *. set (q := m * P / 1000) in *. set (F := m / 100).
  assert (Hq : 1000 * q <= m * P < 1000 * (q + 1)).
  { unfold q. split; [ apply Z.mul_div_le; lia | ].
    replace (1000 * (m * P / 1000 + 1)) with (1000 * Z.succ (m * P / 1000)) by lia.
    apply Z.mul_succ_div_gt; lia. }
  assert (HF : 100 * F <= m < 100 * (F + 1)).
  { unfold F. split; [ apply Z.mul_div_le; lia | ].
    replace (100 * (m / 100 + 1)) with (100 * Z.succ (m / 100)) by lia.
    apply Z.mul_succ_div_gt; lia. }
  assert (0 <= F) by (apply Z.div_pos; lia).
  assert (Hlow : 2 * P * F <= 20 * (mf * c) + P) by nia.
  assert (Hhigh : 20 * (mf * c) + P < 2 * P * (F + 2)) by nia.
  split.
  - apply Z.div_le_lower_bound; [ lia | ]. unfold P in Hlow. nia.
  - assert ((20 * mf + P') / (2 * P') < F + 2); [ | lia ].
    apply Z.div_lt_upper_bound; [ lia | ]. unfold P in Hhigh. nia.
Qed.

Lemma toFixed1_div_1000 (host_toString : float -> string) (m : Z) :
  0 < m < 2 ^ 53 ->
  exists n : Z,
    m / 100 <= n <= m / 100 + 1 /\
    JSNumber.toFixed1 host_toString (JSNumber.of_Z m / 1000)%float
    = (JSNumber.decimal (n / 10) ++ "." ++ JSNumber.decimal (n mod 10))%string.
Proof.
  intros Hm.
  destruct (div_1000 m Hm) as (mf & ef & E & Heq & HE & Hef & Hmf & Hval).
  unfold JSNumber.toFixed1. rewrite Heq.
  assert (Hneg : (0 <=? ef) = false) by (apply Z.leb_gt; lia).
  assert (Hpow : 1 <= 2 ^ (- ef)) by (apply (Z.pow_le_mono_r 2 0); lia).
  assert (Hbig : JSNumber.at_least_1e21 mf ef = false).
  { unfold JSNumber.at_least_1e21. rewrite Hneg. apply Z.leb_gt.
    change (2 ^ 53) with 9007199254740992 in Hmf.
    change (10 ^ 21) with 1000000000000000000000. clear - Hmf Hpow. nia. }
  rewrite Hbig. exists (JSNumber.nearest_tenths mf ef). split; [ | reflexivity ].
  unfold JSNumber.nearest_tenths. rewrite Hneg.
  replace (1 - ef) with (1 + - ef) by lia. rewrite Z.pow_add_r by lia. change (2 ^ 1) with 2.
  assert (HE2 : 2 ^ E = 2 ^ (ef + E) * 2 ^ (- ef)) by
    (rewrite <- Z.pow_add_r by lia; f_equal; lia).
  assert (HP : 1024 <= 2 ^ E) by (apply (Z.pow_le_mono_r 2 10); lia).
  assert (Hc : 2 ^ (ef + E) = 1 \/ 2 ^ (ef + E) = 2 \/ 2 ^ (ef + E) = 4).
  { assert (ef + E = 0 \/ ef + E = 1 \/ ef + E = 2) as [-> | [-> | ->]] by lia; auto. }
  rewrite HE2 in Hval, HP.
  apply (tenths_of_quotient m (Z.pos mf) (2 ^ (ef + E)) (2 ^ (- ef))); try lia.
Qed.

End Binary64.

(* ================================================================== *)
(** * The discovery call *)
(* ================================================================== *)

Section Discovery.

Variable Math_sin Math_cos : float -> float.
Variable Math_atan2 : float -> float -> float.
Variable host_toString : float -> string.
Variable network : list Request -> Request -> Completion Response.
Variable latitude longitude : float.

Let discover (apiKey : option string) :=
  discoverPlaces Math_sin Math_cos Math_atan2 host_toString apiKey network latitude longitude.

Let fallback := getFallbackHistoricPlaces latitude longitude.

Let convert (apiKey : option string) (data : GooglePlacesApiResponse) : list Location :=
  map (fun place =>
         convertGooglePlaceToLocation Math_sin Math_cos Math_atan2 host_toString apiKey
                                      place latitude longitude)
      (filterHistoricPlaces (results data)).

Lemma discover_without_key (apiKey : option string) :
  truthy_opt apiKey = false -> discover apiKey = ([], Normal fallback).
Proof.
  unfold discover, discoverPlaces, fetchHistoricPlacesWithCORS, try_catch, truthy_opt.
  destruct apiKey as [key | ]; [ | reflexivity ].
  intros ->. reflexivity.
Qed.

Lemma discover_with_key (key : string) :
  JSString.truthy key = true ->
  let target := targetUrl host_toString key latitude longitude in
  (exists k data,
      FirstSuccess network target k data /\
      discover (Some key)
      = (requestsOf corsProxies target (S k), Normal (convert (Some key) data)))
  \/
  (Exhausted network target /\
   discover (Some key)
   = (requestsOf corsProxies target (List.length corsProxies), Normal fallback)).
Proof.
  intros Hkey target.
  unfold discover, discoverPlaces, fetchHistoricPlacesWithCORS, try_catch.
  rewrite Hkey. cbn [negb]. unfold bind. cbv beta iota. fold target.
  destruct (proxyLoop_spec Math_sin Math_cos Math_atan2 host_toString (Some key)
              network latitude longitude target corsProxies [])
    as [(k & data & Hk & Hfail & Hok & Hrun) | (Hfail & Hrun)].
  - left. exists k, data. split; [ repeat split; assumption | ].
    rewrite Hrun. reflexivity.
  - right. split; [ exact Hfail | ]. rewrite Hrun. reflexivity.
Qed.

Lemma first_success_unique (target : string) (k k' : nat) (data data' : GooglePlacesApiResponse) :
  FirstSuccess network target k data -> FirstSuccess network target k' data' -> k = k' /\ data = data'.
Proof.
  intros (Hk & Hfail & Hok) (Hk' & Hfail' & Hok').
  destruct (Nat.lt_trichotomy k k') as [Hlt | [-> | Hgt]].
  - rewrite (Hfail' k Hlt) in Hok. discriminate.
  - rewrite Hok in Hok'. injection Hok' as ->. now split.
  - rewrite (Hfail k' Hgt) in Hok'. discriminate.
Qed.

Lemma discover_first_success (key : string) (k : nat) (data : GooglePlacesApiResponse) :
  JSString.truthy key = true ->
  FirstSuccess network (targetUrl host_toString key latitude longitude) k data ->
  discover (Some key)
  = (requestsOf corsProxies (targetUrl host_toString key latitude longitude) (S k),
     Normal (convert (Some key) data)).
Proof.
  intros Hkey Hfirst.
  destruct (discover_with_key key Hkey) as [(k' & data' & Hfirst' & Hrun) | (Hnone & Hrun)].
  - destruct (first_success_unique _ _ _ _ _ Hfirst Hfirst') as [-> ->]. exact Hrun.
  - destruct Hfirst as (Hk & _ & Hok). rewrite (Hnone k Hk) in Hok. discriminate.
Qed.

Lemma discover_exhausted (key : string) :
  JSString.truthy key = true ->
  Exhausted network (targetUrl host_toString key latitude longitude) ->
  discover (Some key)
  = (requestsOf corsProxies (targetUrl host_toString key latitude longitude)
                (List.length corsProxies),
     Normal fallback).
Proof.
  intros Hkey Hnone.
  destruct (discover_with_key key Hkey) as [(k & data & Hfirst & Hrun) | (_ & Hrun)].
  - destruct Hfirst as (Hk & _ & Hok). rewrite (Hnone k Hk) in Hok. discriminate.
  - exact Hrun.
Qed.

End Discovery.

(** The requests of the four paths differ from one another. *)
Lemma requests_distinct (target : string) (n : nat) :
  NoDup (requestsOf corsProxies target n).
Proof.
  assert (Hall : NoDup (map (fun corsProxy => proxyRequest corsProxy target) corsProxies)).
  { unfold corsProxies, proxyRequest; simpl.
    repeat constructor; simpl; intuition discriminate. }
  rewrite <- (firstn_skipn n corsProxies), map_app in Hall.
  exact (NoDup_app_remove_r _ _ Hall).
Qed.

(* ================================================================== *)
(** * Claims on the discovery call *)
(* ================================================================== *)

(** C1. Whatever the coordinate, the access key and the answers of the
    network (transport failures, refused statuses, wrong envelopes, bodies
    that do not parse, successes, in any combination and depending on the
    requests made before), the call completes normally with a list of
    places: it never throws. *)
Theorem discoverPlaces_total
    (Math_sin Math_cos : float -> float) (Math_atan2 : float -> float -> float)
    (host_toString : float -> string) (apiKey : option string)
    (network : list Request -> Request -> Completion Response)
    (latitude longitude : float) :
  exists places : list Location,
    snd (discoverPlaces Math_sin Math_cos Math_atan2 host_toString apiKey network
                        latitude longitude)
    = Normal places.
Proof.
  destruct (truthy_opt apiKey) eqn:Hkey.
  - destruct apiKey as [key | ]; [ | discriminate ].
    destruct (discover_with_key Math_sin Math_cos Math_atan2 host_toString network
                latitude longitude key Hkey)
      as [(k & data & _ & Hrun) | (_ & Hrun)];
      rewrite Hrun; eexists; reflexivity.
  - rewrite (discover_without_key _ _ _ _ _ _ _ _ Hkey). eexists; reflexivity.
Qed.

(** C2. When no access key is configured, or when every proxy path fails,
    the call returns the fallback list: exactly 5 places, each at the
    anchor's latitude and longitude plus a fixed offset of at most 0.01
    degrees in magnitude; without a key no request is made at all. *)
Theorem fallback_when_degraded
    (Math_sin Math_cos : float -> float) (Math_atan2 : float -> float -> float)
    (host_toString : float -> string) (apiKey : option string)
    (network : list Request -> Request -> Completion Response)
    (latitude longitude : float)
    (Hdegraded :
       truthy_opt apiKey = false \/
       exists key, apiKey = Some key /\ JSString.truthy key = true /\
                   Exhausted network (targetUrl host_toString key latitude longitude)) :
  snd (discoverPlaces Math_sin Math_cos Math_atan2 host_toString apiKey network
                      latitude longitude)
  = Normal (getFallbackHistoricPlaces latitude longitude) /\
  (truthy_opt apiKey = false ->
   fst (discoverPlaces Math_sin Math_cos Math_atan2 host_toString apiKey network
                       latitude longitude) = []) /\
  List.length (getFallbackHistoricPlaces latitude longitude) = 5%nat /\
  map (fun p => (Loc.latitude p, Loc.longitude p))
      (getFallbackHistoricPlaces latitude longitude)
  = map (fun d => (latitude + fst d, longitude + snd d)%float) seedOffsets /\
  Forall (fun d => ((abs (fst d) <=? 0.01) && (abs (snd d) <=? 0.01))%float = true)
         seedOffsets.
Proof.
  split; [ | split; [ | split; [ reflexivity | split ] ] ].
  - destruct Hdegraded as [Hkey | (key & -> & Hkey & Hnone)].
    + now rewrite (discover_without_key _ _ _ _ _ _ _ _ Hkey).
    + now rewrite (discover_exhausted _ _ _ _ _ _ _ _ Hkey Hnone).
  - intro Hkey. now rewrite (discover_without_key _ _ _ _ _ _ _ _ Hkey).
  - unfold getFallbackHistoricPlaces, seedOffsets; simpl.
    now rewrite !FloatFacts.sub_add_opp.
  - unfold seedOffsets. repeat constructor.
Qed.

(** Every path fails and the five fallback places come back. *)
Lemma fallback_when_degraded_witness :
  (truthy_opt (Some "KEY") = false \/
   exists key, Some "KEY" = Some key /\ JSString.truthy key = true /\
               Exhausted Sample.offline
                         (targetUrl TaylorHost.toString key Sample.anchorLat Sample.anchorLng)) /\
  snd (Sample.run (Some "KEY") Sample.offline)
  = Normal (getFallbackHistoricPlaces Sample.anchorLat Sample.anchorLng).
Proof.
  assert (H : truthy_opt (Some "KEY") = false \/
              exists key, Some "KEY" = Some key /\ JSString.truthy key = true /\
                          Exhausted Sample.offline
                            (targetUrl TaylorHost.toString key
                                       Sample.anchorLat Sample.anchorLng)).
  { right. exists "KEY". split; [ reflexivity | split; [ reflexivity | ] ].
    intros j _. reflexivity. }
  split; [ exact H | ].
  exact (proj1 (fallback_when_degraded TaylorHost.sin TaylorHost.cos TaylorHost.atan2
                  TaylorHost.toString (Some "KEY") Sample.offline
                  Sample.anchorLat Sample.anchorLng H)).
Defined.

(** C3. With a key configured, the requests of a call are those of the
    first paths of the list, in the order of the list and each made once;
    the call returns what the first contributing path gave (filtered and
    converted) right after that path's request, every earlier path having
    failed; and it falls back only after all four paths were asked, once
    each, and failed. *)
Theorem proxy_chain_sequential
    (Math_sin Math_cos : float -> float) (Math_atan2 : float -> float -> float)
    (host_toString : float -> string) (key : string)
    (network : list Request -> Request -> Completion Response)
    (latitude longitude : float)
    (Hkey : JSString.truthy key = true) :
  NoDup (fst (discoverPlaces Math_sin Math_cos Math_atan2 host_toString (Some key)
                             network latitude longitude)) /\
  ((exists k data,
       FirstSuccess network (targetUrl host_toString key latitude longitude) k data /\
       discoverPlaces Math_sin Math_cos Math_atan2 host_toString (Some key)
                      network latitude longitude
       = (requestsOf corsProxies (targetUrl host_toString key latitude longitude) (S k),
          Normal (map (fun place =>
                         convertGooglePlaceToLocation Math_sin Math_cos Math_atan2
                           host_toString (Some key) place latitude longitude)
                      (filterHistoricPlaces (results data)))))
   \/
   (Exhausted network (targetUrl host_toString key latitude longitude) /\
    discoverPlaces Math_sin Math_cos Math_atan2 host_toString (Some key)
                   network latitude longitude
    = (requestsOf corsProxies (targetUrl host_toString key latitude longitude) 4,
       Normal (getFallbackHistoricPlaces latitude longitude)))).
Proof.
  pose proof (discover_with_key Math_sin Math_cos Math_atan2 host_toString network
                latitude longitude key Hkey) as Hrun.
  cbv zeta in Hrun. split; [ | exact Hrun ].
  destruct Hrun as [(k & data & _ & ->) | (_ & ->)]; apply requests_distinct.
Qed.

(** The first path is refused, the second answers: two requests, in order. *)
Lemma proxy_chain_sequential_witness :
  JSString.truthy "KEY" = true /\
  fst (Sample.run (Some "KEY") (Sample.secondPathAnswers [Sample.charminar]))
  = requestsOf corsProxies
               (targetUrl TaylorHost.toString "KEY" Sample.anchorLat Sample.anchorLng) 2 /\
  NoDup (fst (Sample.run (Some "KEY") (Sample.secondPathAnswers [Sample.charminar]))).
Proof.
  split; [ reflexivity | split; [ vm_compute; reflexivity | ] ].
  exact (proj1 (proxy_chain_sequential TaylorHost.sin TaylorHost.cos TaylorHost.atan2
                  TaylorHost.toString "KEY" (Sample.secondPathAnswers [Sample.charminar])
                  Sample.anchorLat Sample.anchorLng eq_refl)).
Defined.

(** C4. When a path contributes data of which no candidate passes the
    relevance filter, the call returns the empty list, which is not the
    fallback list. *)
Theorem empty_success_is_not_fallback
    (Math_sin Math_cos : float -> float) (Math_atan2 : float -> float -> float)
    (host_toString : float -> string) (key : string)
    (network : list Request -> Request -> Completion Response)
    (latitude longitude : float) (k : nat) (data : GooglePlacesApiResponse)
    (Hkey : JSString.truthy key = true)
    (Hfirst : FirstSuccess network (targetUrl host_toString key latitude longitude) k data)
    (Hnone : filterHistoricPlaces (results data) = []) :
  snd (discoverPlaces Math_sin Math_cos Math_atan2 host_toString (Some key) network
                      latitude longitude) = Normal [] /\
  snd (discoverPlaces Math_sin Math_cos Math_atan2 host_toString (Some key) network
                      latitude longitude)
  <> Normal (getFallbackHistoricPlaces latitude longitude).
Proof.
  rewrite (discover_first_success _ _ _ _ _ _ _ _ _ _ Hkey Hfirst), Hnone.
  split; [ reflexivity | discriminate ].
Qed.

(** The second path answers with a cafe only. *)
Lemma empty_success_is_not_fallback_witness :
  JSString.truthy "KEY" = true /\
  FirstSuccess (Sample.secondPathAnswers [Sample.cafe])
               (targetUrl TaylorHost.toString "KEY" Sample.anchorLat Sample.anchorLng)
               1 (Sample.answer [Sample.cafe]) /\
  filterHistoricPlaces (results (Sample.answer [Sample.cafe])) = [] /\
  snd (Sample.run (Some "KEY") (Sample.secondPathAnswers [Sample.cafe])) = Normal [].
Proof.
  assert (Hfirst : FirstSuccess (Sample.secondPathAnswers [Sample.cafe])
                     (targetUrl TaylorHost.toString "KEY" Sample.anchorLat Sample.anchorLng)
                     1 (Sample.answer [Sample.cafe])).
  { split; [ simpl; lia | split; [ | reflexivity ] ].
    intros j Hj. assert (j = 0%nat) as -> by lia. reflexivity. }
  split; [ reflexivity | split; [ exact Hfirst | split; [ reflexivity | ] ] ].
  exact (proj1 (empty_success_is_not_fallback TaylorHost.sin TaylorHost.cos TaylorHost.atan2
                  TaylorHost.toString "KEY" (Sample.secondPathAnswers [Sample.cafe])
                  Sample.anchorLat Sample.anchorLng 1 (Sample.answer [Sample.cafe])
                  eq_refl Hfirst eq_refl)).
Defined.

(* ================================================================== *)
(** * Claims on the conversion and on the fallback data *)
(* ================================================================== *)

(** C7, as stated, at a candidate with a photo and a configured key: the
    image URL is not the provider's photo URL. *)
Lemma photo_url_is_proxied_counterexample :
  getImageUrl (Some "KEY") Sample.golconda
  = "https://cors-anywhere.herokuapp.com/https://maps.googleapis.com/maps/api/place/photo?maxwidth=400&photoreference=Aap_uE&key=KEY" /\
  getImageUrl (Some "KEY") Sample.golconda
  <> photoEndpoint ++ "?maxwidth=400&photoreference=" ++ "Aap_uE" ++ "&key=" ++ "KEY".
Proof. split; [ reflexivity | vm_compute; discriminate ]. Qed.

(** The type tag [fort] is not looked at: the fort image goes by the name. *)
Lemma fort_tag_is_not_matched :
  GooglePlace.types Sample.golconda = ["fort"] /\
  getImageUrl None Sample.golconda = genericImage.
Proof. split; reflexivity. Qed.

(** C7, amended. With a photo and a configured key the image URL is the
    provider's photo URL, [<endpoint>?maxwidth=400&photoreference=<ref>&key=<key>]
    for the first photo's reference, behind the image proxy; otherwise it
    is the image of the first rule that holds among: type museum; type
    place_of_worship or hindu_temple; type historical_landmark or "fort" in
    the lower-cased name; "palace" in the name; "charminar" in the name;
    and the generic image when none holds. *)
Theorem getImageUrl_policy (apiKey : option string) (place : GooglePlaceResponse) :
  getImageUrl apiKey place
  = match GooglePlace.photos place, apiKey with
    | Some (photo :: _), Some key =>
        if JSString.truthy key
        then imageProxy ++ photoEndpoint ++ "?maxwidth=400&photoreference="
               ++ GooglePlace.photo_reference photo ++ "&key=" ++ key
        else firstMatch staticImageRules genericImage place
    | _, _ => firstMatch staticImageRules genericImage place
    end.
Proof.
  assert (Hstatic :
            firstMatch staticImageRules genericImage place
            = (if hasType "museum" place then
                 "https://images.unsplash.com/photo-1578495555443-d134c52754e7?w=400&h=300&fit=crop"
               else if (hasType "place_of_worship" place || hasType "hindu_temple" place)%bool then
                 "https://images.unsplash.com/photo-1583224964938-0c17db9e623a?w=400&h=300&fit=crop"
               else if (hasType "historical_landmark" place || nameHas "fort" place)%bool then
                 "https://images.unsplash.com/photo-1566127952889-bf906f4e4c5d?w=400&h=300&fit=crop"
               else if nameHas "palace" place then
                 "https://images.unsplash.com/photo-1545042746-d0a8b69e5e22?w=400&h=300&fit=crop"
               else if nameHas "charminar" place then
                 "https://images.unsplash.com/photo-1564507592333-c60657eea523?w=400&h=300&fit=crop"
               else genericImage)) by reflexivity.
  rewrite Hstatic. unfold getImageUrl, hasType, nameHas, genericImage.
  destruct (GooglePlace.photos place) as [[ | photo rest] | ]; reflexivity.
Qed.

(** C8, as stated, at a provider answer that lists one place twice: two
    places of the returned list share their id. *)
Lemma duplicate_ids_counterexample :
  exists p q : Location,
    snd (Sample.run (Some "KEY")
                    (Sample.secondPathAnswers [Sample.charminar; Sample.charminar]))
    = Normal [p; q] /\
    Loc.id p = Loc.id q.
Proof. eexists; eexists; split; vm_compute; reflexivity. Qed.

(** The ids of the fallback places are not empty and differ. *)
Lemma fallback_ids (latitude longitude : float) :
  Forall (fun p => Loc.id p <> EmptyString) (getFallbackHistoricPlaces latitude longitude) /\
  NoDup (map Loc.id (getFallbackHistoricPlaces latitude longitude)).
Proof.
  split.
  - repeat constructor; discriminate.
  - simpl. repeat constructor; simpl; intuition discriminate.
Qed.

(** C8, amended. A call returns either the fallback list, whose 5 ids are
    not empty and differ from one another, or the places converted from
    the candidates of the first contributing path that pass the filter,
    whose ids are these candidates' [place_id]s, in order and as received:
    they are not empty and distinct exactly when the provider's are. *)
Theorem ids_of_a_discovery
    (Math_sin Math_cos : float -> float) (Math_atan2 : float -> float -> float)
    (host_toString : float -> string) (apiKey : option string)
    (network : list Request -> Request -> Completion Response)
    (latitude longitude : float) :
  (snd (discoverPlaces Math_sin Math_cos Math_atan2 host_toString apiKey network
                       latitude longitude)
   = Normal (getFallbackHistoricPlaces latitude longitude) /\
   Forall (fun p => Loc.id p <> EmptyString) (getFallbackHistoricPlaces latitude longitude) /\
   NoDup (map Loc.id (getFallbackHistoricPlaces latitude longitude)))
  \/
  (exists key k data places,
      apiKey = Some key /\
      FirstSuccess network (targetUrl host_toString key latitude longitude) k data /\
      snd (discoverPlaces Math_sin Math_cos Math_atan2 host_toString apiKey network
                          latitude longitude)
      = Normal places /\
      map Loc.id places
      = map GooglePlace.place_id (filterHistoricPlaces (results data))).
Proof.
  destruct (truthy_opt apiKey) eqn:Hkey.
  - destruct apiKey as [key | ]; [ | discriminate ].
    destruct (discover_with_key Math_sin Math_cos Math_atan2 host_toString network
                latitude longitude key Hkey)
      as [(k & data & Hfirst & Hrun) | (_ & Hrun)].
    + right. exists key, k, data. eexists. rewrite Hrun.
      split; [ reflexivity | split; [ exact Hfirst | split; [ reflexivity | ] ] ].
      rewrite map_map. reflexivity.
    + left. rewrite Hrun. split; [ reflexivity | apply fallback_ids ].
  - left. rewrite (discover_without_key _ _ _ _ _ _ _ _ Hkey).
    split; [ reflexivity | apply fallback_ids ].
Qed.

(** C10. The fallback lists of two anchors agree on everything but the
    coordinates; the distance labels are the same five constants for every
    anchor. *)
Theorem fallback_independent_of_anchor (lat1 lng1 lat2 lng2 : float) :
  map withoutCoordinates (getFallbackHistoricPlaces lat1 lng1)
  = map withoutCoordinates (getFallbackHistoricPlaces lat2 lng2) /\
  map Loc.distance (getFallbackHistoricPlaces lat1 lng1)
  = ["1.2km"; "2.1km"; "800m"; "1.8km"; "2.5km"].
Proof. split; reflexivity. Qed.

(** With the Taylor host at the sample anchor, the distances from the anchor
    to the fallback places print differently from the labels these places
    carry. *)
Lemma fallback_labels_are_not_distances :
  map (fun p => formatDistance TaylorHost.toString
                  (calculateDistance TaylorHost.sin TaylorHost.cos TaylorHost.atan2
                     Sample.anchorLat Sample.anchorLng (Loc.latitude p) (Loc.longitude p)))
      (getFallbackHistoricPlaces Sample.anchorLat Sample.anchorLng)
  = ["1.5km"; "1.5km"; "769m"; "1.2km"; "1.2km"].
Proof. vm_compute. reflexivity. Qed.

(** A candidate with one of the historic types passes the filter. *)
Lemma historic_type_is_relevant (place : GooglePlaceResponse) (type : string) :
  JSString.array_includes historicTypes type = true ->
  hasType type place = true ->
  isHistoric place = true.
Proof.
  intros Hhistoric Hhas. unfold isHistoric.
  apply orb_true_iff; left.
  unfold hasType, JSString.array_includes in Hhas.
  apply existsb_exists in Hhas as (t & Hin & Heq).
  apply String.eqb_eq in Heq; subst t.
  apply existsb_exists. now exists type.
Qed.

(** C5. Anchor (17.3850, 78.4867); some path contributes one candidate
    named "Charminar", tagged tourist_attraction, with formatted address
    "Charminar Rd, Hyderabad" and no area name, due north of the anchor at
    a computed distance of 1110 m. The call returns exactly one place; its
    distance label is "1.1km" and its description contains neither "rated"
    nor "status", in whatever letter case. *)
Theorem charminar_scenario
    (Math_sin Math_cos : float -> float) (Math_atan2 : float -> float -> float)
    (host_toString : float -> string) (key : string)
    (network : list Request -> Request -> Completion Response)
    (k : nat) (data : GooglePlacesApiResponse) (candidate : GooglePlaceResponse)
    (Hkey : JSString.truthy key = true)
    (Hfirst : FirstSuccess network
                (targetUrl host_toString key Sample.anchorLat Sample.anchorLng) k data)
    (Hone : results data = [candidate])
    (Hname : GooglePlace.name candidate = "Charminar")
    (Htag : hasType "tourist_attraction" candidate = true)
    (Haddress : GooglePlace.formatted_address candidate = Some "Charminar Rd, Hyderabad")
    (Harea : GooglePlace.vicinity candidate = None)
    (Hmeridian : GooglePlace.lng candidate = Sample.anchorLng)
    (Hnorth : (Sample.anchorLat <? GooglePlace.lat candidate)%float = true)
    (Hdistance : calculateDistance Math_sin Math_cos Math_atan2
                   Sample.anchorLat Sample.anchorLng
                   (GooglePlace.lat candidate) (GooglePlace.lng candidate)
                 = 1110%float) :
  exists place : Location,
    snd (discoverPlaces Math_sin Math_cos Math_atan2 host_toString (Some key) network
                        Sample.anchorLat Sample.anchorLng)
    = Normal [place] /\
    Loc.distance place = "1.1km" /\
    JSString.includes (JSString.toLowerCase (Loc.description place)) "rated" = false /\
    JSString.includes (JSString.toLowerCase (Loc.description place)) "status" = false.
Proof.
  rewrite (discover_first_success _ _ _ _ _ _ _ _ _ _ Hkey Hfirst), Hone.
  assert (Hrelevant : isHistoric candidate = true) by
    (now apply historic_type_is_relevant with (type := "tourist_attraction")).
  unfold filterHistoricPlaces; simpl filter; rewrite Hrelevant; simpl map.
  eexists; split; [ reflexivity | ].
  assert (Hdescription :
            buildPlaceDescription candidate
            = "Charminar is a renowned heritage site and tourist destination. Located in Charminar Rd, this site offers visitors a glimpse into the rich history and cultural traditions that have shaped this region over centuries.").
  { unfold buildPlaceDescription. unfold hasType in Htag.
    rewrite Htag, Hname, Harea, Haddress. reflexivity. }
  unfold convertGooglePlaceToLocation; simpl.
  rewrite Hdistance, Hdescription.
  split; [ | split ]; vm_compute; reflexivity.
Qed.

(** The Taylor host, the second path answering with the sample candidate. *)
Lemma charminar_scenario_witness :
  FirstSuccess (Sample.secondPathAnswers [Sample.charminar])
               (targetUrl TaylorHost.toString "KEY" Sample.anchorLat Sample.anchorLng)
               1 (Sample.answer [Sample.charminar]) /\
  calculateDistance TaylorHost.sin TaylorHost.cos TaylorHost.atan2
    Sample.anchorLat Sample.anchorLng
    (GooglePlace.lat Sample.charminar) (GooglePlace.lng Sample.charminar)
  = 1110%float /\
  exists place : Location,
    snd (Sample.run (Some "KEY") (Sample.secondPathAnswers [Sample.charminar]))
    = Normal [place] /\
    Loc.distance place = "1.1km" /\
    JSString.includes (JSString.toLowerCase (Loc.description place)) "rated" = false /\
    JSString.includes (JSString.toLowerCase (Loc.description place)) "status" = false.
Proof.
  assert (Hfirst : FirstSuccess (Sample.secondPathAnswers [Sample.charminar])
                     (targetUrl TaylorHost.toString "KEY" Sample.anchorLat Sample.anchorLng)
                     1 (Sample.answer [Sample.charminar])).
  { split; [ simpl; lia | split; [ | reflexivity ] ].
    intros j Hj. assert (j = 0%nat) as -> by lia. reflexivity. }
  assert (Hdistance : calculateDistance TaylorHost.sin TaylorHost.cos TaylorHost.atan2
                        Sample.anchorLat Sample.anchorLng
                        (GooglePlace.lat Sample.charminar) (GooglePlace.lng Sample.charminar)
                      = 1110%float) by (vm_compute; reflexivity).
  split; [ exact Hfirst | split; [ exact Hdistance | ] ].
  exact (charminar_scenario TaylorHost.sin TaylorHost.cos TaylorHost.atan2
           TaylorHost.toString "KEY" (Sample.secondPathAnswers [Sample.charminar])
           1 (Sample.answer [Sample.charminar]) Sample.charminar
           eq_refl Hfirst eq_refl eq_refl eq_refl eq_refl eq_refl eq_refl eq_refl Hdistance).
Defined.

(* ================================================================== *)
(** * Claims on the distance *)
(* ================================================================== *)

Section Haversine.

Local Open Scope float_scope.

Variable Math_sin Math_cos : float -> float.
Variable Math_atan2 : float -> float -> float.

(** The sine of the host is odd, as the sine of a host worth the name is
    (fdlibm's, used by V8 and SpiderMonkey, negates its result for a
    negated argument). *)
Hypothesis sin_odd : forall x, Math_sin (- x) = - Math_sin x.

(** The squared sine of half an angle given in degrees. *)
Let haversin (degrees : float) : float :=
  Math_sin (degrees * Math_PI / 180 / 2) * Math_sin (degrees * Math_PI / 180 / 2).

Lemma half_angle_opp (d : float) :
  Math_sin (- d * Math_PI / 180 / 2) = - Math_sin (d * Math_PI / 180 / 2).
Proof. now rewrite FloatFacts.mul_opp_l, !FloatFacts.div_opp_l, sin_odd. Qed.

Lemma haversin_swap (x y : float) : haversin (y - x) = haversin (x - y).
Proof.
  unfold haversin.
  destruct (FloatFacts.sub_swap x y) as [-> | ->]; [ | reflexivity ].
  now rewrite half_angle_opp, FloatFacts.mul_opp_opp.
Qed.

Lemma cross_term_swap (c x y : float) :
  c * Math_sin ((y - x) * Math_PI / 180 / 2) * Math_sin ((y - x) * Math_PI / 180 / 2)
  = c * Math_sin ((x - y) * Math_PI / 180 / 2) * Math_sin ((x - y) * Math_PI / 180 / 2).
Proof.
  destruct (FloatFacts.sub_swap x y) as [-> | ->]; [ | reflexivity ].
  now rewrite half_angle_opp, (FloatFacts.mul_opp_r c), FloatFacts.mul_opp_opp.
Qed.

(** C9. The distance from [a] to [b] is the distance from [b] to [a], on a
    host whose sine is odd. *)
Theorem calculateDistance_symmetric (lat1 lon1 lat2 lon2 : float) :
  calculateDistance Math_sin Math_cos Math_atan2 lat1 lon1 lat2 lon2
  = calculateDistance Math_sin Math_cos Math_atan2 lat2 lon2 lat1 lon1.
Proof.
  unfold calculateDistance; cbv zeta.
  pose proof (haversin_swap lat1 lat2) as Hlat; unfold haversin in Hlat.
  rewrite Hlat, (cross_term_swap _ lon1 lon2).
  now rewrite (FloatFacts.mul_comm (Math_cos (lat1 * Math_PI / 180))).
Qed.

End Haversine.

(** The Taylor sine is odd; Hyderabad to Delhi and back. *)
Lemma calculateDistance_symmetric_witness :
  (forall x, TaylorHost.sin (- x) = (- TaylorHost.sin x)%float) /\
  (calculateDistance TaylorHost.sin TaylorHost.cos TaylorHost.atan2
                     17.3850 78.4867 28.6139 77.2090
   = calculateDistance TaylorHost.sin TaylorHost.cos TaylorHost.atan2
                       28.6139 77.2090 17.3850 78.4867)%float.
Proof.
  assert (Hodd : forall x, TaylorHost.sin (- x) = (- TaylorHost.sin x)%float).
  { intro x. unfold TaylorHost.sin; cbv zeta.
    now rewrite FloatFacts.mul_opp_opp, FloatFacts.mul_opp_l. }
  split; [ exact Hodd | ].
  exact (calculateDistance_symmetric TaylorHost.sin TaylorHost.cos TaylorHost.atan2 Hodd
           17.3850 78.4867 28.6139 77.2090)%float.
Defined.

Lemma append_assoc (a b c : string) : (a ++ b) ++ c = a ++ b ++ c.
Proof. induction a as [ | x a IH ]; simpl; [ reflexivity | now rewrite IH ]. Qed.

(** Remainders of a division by 10 print as one digit. *)
Lemma decimal_digit (d : Z) :
  0 <= d < 10 -> String.length (JSNumber.decimal d) = 1%nat.
Proof.
  intros Hd.
  assert (d = 0 \/ d = 1 \/ d = 2 \/ d = 3 \/ d = 4 \/
          d = 5 \/ d = 6 \/ d = 7 \/ d = 8 \/ d = 9) as Hcases by lia.
  repeat (destruct Hcases as [-> | Hcases]; [ reflexivity | ]). now subst.
Qed.

(** C6. For every integer number of meters [m] from 0 up to [2^53] (the
    integers that are numbers, one by one), the label is the decimal
    digits of [m] followed by "m" when [m <= 1000], and when [m > 1000] it
    is a number with exactly one digit after the point followed by "km":
    the digits of [n / 10], a point and the digit [n mod 10], where [n],
    the number of tenths of a kilometer, is [m / 100] rounded down or up.
    In particular 1000 gives "1000m" and 1001 gives "1.0km". *)
Theorem formatDistance_boundary (host_toString : float -> string) (m : Z)
    (Hm : 0 <= m < 2 ^ 53) :
  (m <= 1000 ->
   formatDistance host_toString (JSNumber.of_Z m) = JSNumber.decimal m ++ "m") /\
  (1000 < m ->
   exists n : Z,
     m / 100 <= n <= m / 100 + 1 /\
     String.length (JSNumber.decimal (n mod 10)) = 1%nat /\
     formatDistance host_toString (JSNumber.of_Z m)
     = JSNumber.decimal (n / 10) ++ "." ++ JSNumber.decimal (n mod 10) ++ "km") /\
  formatDistance host_toString 1000 = "1000m" /\
  formatDistance host_toString 1001 = "1.0km".
Proof.
  unfold formatDistance.
  split; [ | split; [ | split; reflexivity ] ].
  - intro Hle. rewrite Binary64.ltb_1000_of_Z by exact Hm.
    replace (1000 <? m) with false by (symmetry; apply Z.ltb_ge; lia).
    now rewrite Binary64.toString_of_Z.
  - intro Hgt. rewrite Binary64.ltb_1000_of_Z by exact Hm.
    replace (1000 <? m) with true by (symmetry; apply Z.ltb_lt; lia).
    destruct (Binary64.toFixed1_div_1000 host_toString m) as (n & Hn & ->); [ lia | ].
    exists n. split; [ exact Hn | split ].
    + apply decimal_digit. apply Z.mod_pos_bound. lia.
    + now rewrite !append_assoc.
Qed.

(** 1110 m, the distance of the scenario above. *)
Lemma formatDistance_boundary_witness :
  0 <= 1110 < 2 ^ 53 /\
  (1000 < 1110 ->
   exists n : Z,
     1110 / 100 <= n <= 1110 / 100 + 1 /\
     String.length (JSNumber.decimal (n mod 10)) = 1%nat /\
     formatDistance TaylorHost.toString (JSNumber.of_Z 1110)
     = JSNumber.decimal (n / 10) ++ "." ++ JSNumber.decimal (n mod 10) ++ "km").
Proof.
  assert (H : 0 <= 1110 < 2 ^ 53) by (split; [ discriminate | reflexivity ]).
  split; [ exact H | ].
  exact (proj1 (proj2 (formatDistance_boundary TaylorHost.toString 1110 H))).
Defined.

(* ================================================================== *)
(** * Further properties of the distance *)
(* ================================================================== *)

Module FloatZero.
Local Open Scope float_scope.

(** A finite number minus itself is [+0]. *)
Lemma sub_diag (x : float) : isFinite x = true -> x - x = 0.
Proof.
  unfold isFinite. intro Hfin.
  apply Prim2SF_inj. rewrite sub_spec.
  destruct (Prim2SF x) as [s | s | | s m e]; try discriminate.
  - now destruct s.
  - unfold SF64sub, SFsub. now rewrite Z.sub_diag.
Qed.

(** A finite number times zero is a zero. *)
Lemma mul_zero_r (x : float) : isFinite x = true -> x * 0 = 0 \/ x * 0 = - 0.
Proof.
  unfold isFinite. intro Hfin.
  assert (H : Prim2SF (x * 0) = S754_zero false \/ Prim2SF (x * 0) = S754_zero true).
  { rewrite mul_spec. change (Prim2SF 0) with (S754_zero false).
    destruct (Prim2SF x) as [s | s | | s m e]; try discriminate; destruct s; simpl; auto. }
  destruct H as [H | H]; [ left | right ]; apply Prim2SF_inj; exact H.
Qed.

End FloatZero.

Section ZeroDistance.

Local Open Scope float_scope.

Variable Math_sin Math_cos : float -> float.
Variable Math_atan2 : float -> float -> float.
Variable host_toString : float -> string.

(** X1. From a point with finite coordinates to itself the distance is 0
    and the label is "0m", on a host where [sin 0 = 0], [atan2 0 1 = 0]
    and the cosine of the latitude is finite. *)
Theorem distance_to_itself (lat lon : float)
    (Hlat : isFinite lat = true) (Hlon : isFinite lon = true)
    (Hsin : Math_sin 0 = 0) (Hatan : Math_atan2 0 1 = 0)
    (Hcos : isFinite (Math_cos (lat * Math_PI / 180) * Math_cos (lat * Math_PI / 180)) = true) :
  calculateDistance Math_sin Math_cos Math_atan2 lat lon lat lon = 0 /\
  formatDistance host_toString
    (calculateDistance Math_sin Math_cos Math_atan2 lat lon lat lon) = "0m"%string.
Proof.
  assert (Hzero : calculateDistance Math_sin Math_cos Math_atan2 lat lon lat lon = 0).
  { unfold calculateDistance; cbv zeta.
    rewrite (FloatZero.sub_diag lat Hlat), (FloatZero.sub_diag lon Hlon).
    change (0 * Math_PI / 180 / 2) with 0. rewrite Hsin.
    destruct (FloatZero.mul_zero_r _ Hcos) as [-> | ->].
    - change (0 * 0 + 0 * 0) with 0.
      change (PrimFloat.sqrt 0) with 0. change (PrimFloat.sqrt (1 - 0)) with 1.
      rewrite Hatan. reflexivity.
    - change (0 * 0 + - 0 * 0) with 0.
      change (PrimFloat.sqrt 0) with 0. change (PrimFloat.sqrt (1 - 0)) with 1.
      rewrite Hatan. reflexivity. }
  split; [ exact Hzero | ]. rewrite Hzero. reflexivity.
Qed.

End ZeroDistance.

(** The Taylor host at the sample anchor. *)
Lemma distance_to_itself_witness :
  isFinite Sample.anchorLat = true /\
  isFinite (TaylorHost.cos (Sample.anchorLat * Math_PI / 180)
            * TaylorHost.cos (Sample.anchorLat * Math_PI / 180))%float = true /\
  calculateDistance TaylorHost.sin TaylorHost.cos TaylorHost.atan2
    Sample.anchorLat Sample.anchorLng Sample.anchorLat Sample.anchorLng = 0%float.
Proof.
  split; [ reflexivity | split; [ reflexivity | ] ].
  exact (proj1 (distance_to_itself TaylorHost.sin TaylorHost.cos TaylorHost.atan2
                  TaylorHost.toString Sample.anchorLat Sample.anchorLng
                  eq_refl eq_refl eq_refl eq_refl eq_refl)).
Defined.

(* ================================================================== *)
(** * Further properties of the filter and of the conversion *)
(* ================================================================== *)

Lemma lower_ascii_idempotent (c : ascii) :
  JSString.lower_ascii (JSString.lower_ascii c) = JSString.lower_ascii c.
Proof.
  destruct c as [[] [] [] [] [] [] [] []]; reflexivity.
Qed.

Lemma toLowerCase_idempotent (s : string) :
  JSString.toLowerCase (JSString.toLowerCase s) = JSString.toLowerCase s.
Proof.
  induction s as [ | c s IH ]; simpl; [ reflexivity | ].
  now rewrite lower_ascii_idempotent, IH.
Qed.

Lemma existsb_ext {A : Type} (f g : A -> bool) (l : list A) :
  (forall x, f x = g x) -> existsb f l = existsb g l.
Proof.
  intro H. induction l as [ | x l IH ]; simpl; [ reflexivity | now rewrite H, IH ].
Qed.

Lemma truthy_toLowerCase (s : string) :
  JSString.truthy (JSString.toLowerCase s) = JSString.truthy s.
Proof. now destruct s. Qed.

(** X2. Relevance does not depend on the letter case of the name and of
    the area: two candidates with the same types whose names, and whose
    areas, are equal once lower-cased are both kept or both dropped. *)
Theorem relevance_ignores_case (p q : GooglePlaceResponse)
    (Htypes : GooglePlace.types p = GooglePlace.types q)
    (Hname : JSString.toLowerCase (GooglePlace.name p)
             = JSString.toLowerCase (GooglePlace.name q))
    (Harea : option_map JSString.toLowerCase (GooglePlace.vicinity p)
             = option_map JSString.toLowerCase (GooglePlace.vicinity q)) :
  isHistoric p = isHistoric q.
Proof.
  unfold isHistoric. rewrite Htypes, Hname. f_equal.
  apply existsb_ext; intros keyword. f_equal.
  destruct (GooglePlace.vicinity p) as [v | ], (GooglePlace.vicinity q) as [w | ];
    try discriminate; [ | reflexivity ].
  injection Harea as Harea.
  rewrite <- (truthy_toLowerCase v), <- (truthy_toLowerCase w), Harea. reflexivity.
Qed.

(** "GOLCONDA FORT" and "golconda fort", neither with a historic type. *)
Lemma relevance_ignores_case_witness :
  JSString.toLowerCase "GOLCONDA FORT" = JSString.toLowerCase "golconda fort" /\
  isHistoric (withName "GOLCONDA FORT" Sample.cafe)
  = isHistoric (withName "golconda fort" Sample.cafe).
Proof.
  split; [ reflexivity | ].
  exact (relevance_ignores_case (withName "GOLCONDA FORT" Sample.cafe)
           (withName "golconda fort" Sample.cafe) eq_refl eq_refl eq_refl).
Defined.

(** X3. The request asks the provider for [type=tourist_attraction]; on
    an answer whose candidates all carry that type the filter drops
    nothing. *)
Theorem filter_keeps_tourist_attractions (places : list GooglePlaceResponse)
    (Htyped : Forall (fun place => hasType "tourist_attraction" place = true) places) :
  filterHistoricPlaces places = places.
Proof.
  unfold filterHistoricPlaces. apply forallb_filter_id, forallb_forall.
  intros place Hin. rewrite Forall_forall in Htyped.
  apply historic_type_is_relevant with (type := "tourist_attraction");
    [ reflexivity | now apply Htyped ].
Qed.

Lemma filter_keeps_tourist_attractions_witness :
  Forall (fun place => hasType "tourist_attraction" place = true)
         [Sample.charminar; withName "Salar Jung" Sample.charminar] /\
  filterHistoricPlaces [Sample.charminar; withName "Salar Jung" Sample.charminar]
  = [Sample.charminar; withName "Salar Jung" Sample.charminar].
Proof.
  assert (H : Forall (fun place => hasType "tourist_attraction" place = true)
                     [Sample.charminar; withName "Salar Jung" Sample.charminar]) by
    (repeat constructor).
  split; [ exact H | exact (filter_keeps_tourist_attractions _ H) ].
Defined.

(** X4. The description is built from the name, the types, the area and
    the address only: ratings, rating counts, business status, opening
    hours, photos, identifier and coordinates never change it. It begins
    with the name. *)
Theorem description_ignores_metadata (p q : GooglePlaceResponse)
    (Hsame : describedFields p = describedFields q) :
  buildPlaceDescription p = buildPlaceDescription q /\
  String.prefix (GooglePlace.name p) (buildPlaceDescription p) = true.
Proof.
  unfold describedFields in Hsame. injection Hsame as Hname Htypes Harea Haddress.
  split.
  - unfold buildPlaceDescription. now rewrite Hname, Htypes, Harea, Haddress.
  - assert (Hprefix : forall a b, String.prefix a (a ++ b) = true).
    { induction a as [ | c a IH ]; intro b; simpl; [ now destruct b | ].
      rewrite IH. now destruct (Ascii.ascii_dec c c). }
    unfold buildPlaceDescription.
    set (n := GooglePlace.name p).
    destruct (_ || _)%bool; [ | destruct (_ || _)%bool; [ | destruct (JSString.array_includes _ _) ] ];
      destruct (truthy_opt (GooglePlace.vicinity p));
      try destruct (truthy_opt (GooglePlace.formatted_address p));
      try destruct (Nat.ltb _ _);
      rewrite ?append_assoc; apply Hprefix.
Qed.

Lemma description_ignores_metadata_witness :
  describedFields Sample.charminar
  = describedFields (withMetadata (Some 4.5%float) (Some 255216%float)
                                  (Some "OPERATIONAL") (Some true) Sample.charminar) /\
  buildPlaceDescription Sample.charminar
  = buildPlaceDescription (withMetadata (Some 4.5%float) (Some 255216%float)
                                        (Some "OPERATIONAL") (Some true) Sample.charminar).
Proof.
  split; [ reflexivity | ].
  exact (proj1 (description_ignores_metadata Sample.charminar
                  (withMetadata (Some 4.5%float) (Some 255216%float)
                                (Some "OPERATIONAL") (Some true) Sample.charminar)
                  eq_refl)).
Defined.

(** X5. Whatever the candidate and the configuration, the image URL is an
    [https] URL. *)
Theorem imageUrl_is_https (apiKey : option string) (place : GooglePlaceResponse) :
  String.prefix "https://" (getImageUrl apiKey place) = true.
Proof.
  unfold getImageUrl.
  assert (Hstatic : forall a b c d e : bool,
             String.prefix "https://"
               (if a then "https://images.unsplash.com/photo-1578495555443-d134c52754e7?w=400&h=300&fit=crop"
                else if b then "https://images.unsplash.com/photo-1583224964938-0c17db9e623a?w=400&h=300&fit=crop"
                else if c then "https://images.unsplash.com/photo-1566127952889-bf906f4e4c5d?w=400&h=300&fit=crop"
                else if d then "https://images.unsplash.com/photo-1545042746-d0a8b69e5e22?w=400&h=300&fit=crop"
                else if e then "https://images.unsplash.com/photo-1564507592333-c60657eea523?w=400&h=300&fit=crop"
                else "https://images.unsplash.com/photo-1578662996442-48f60103fc96?w=400&h=300&fit=crop")
             = true) by (intros [] [] [] [] []; reflexivity).
  destruct (GooglePlace.photos place) as [[ | photo rest] | ]; try apply Hstatic.
  destruct apiKey as [key | ]; [ | apply Hstatic ].
  destruct (JSString.truthy key); [ reflexivity | apply Hstatic ].
Qed.

(* ================================================================== *)
(** * Further properties of the discovery call *)
(* ================================================================== *)

(** X6. On a success the places returned are the relevant candidates of
    the contributing answer, one for one and in the answer's order: each
    carries its candidate's identifier, name, coordinates and metadata
    unchanged and the category "heritage"; no place is added, so there are
    at most as many places as the answer had candidates. *)
Theorem discovery_keeps_candidates
    (Math_sin Math_cos : float -> float) (Math_atan2 : float -> float -> float)
    (host_toString : float -> string) (key : string)
    (network : list Request -> Request -> Completion Response)
    (latitude longitude : float) (k : nat) (data : GooglePlacesApiResponse)
    (Hkey : JSString.truthy key = true)
    (Hfirst : FirstSuccess network (targetUrl host_toString key latitude longitude) k data) :
  exists places : list Location,
    snd (discoverPlaces Math_sin Math_cos Math_atan2 host_toString (Some key) network
                        latitude longitude) = Normal places /\
    Forall2 copiedFrom (filter isHistoric (results data)) places /\
    (List.length places <= List.length (results data))%nat.
Proof.
  rewrite (discover_first_success _ _ _ _ _ _ _ _ _ _ Hkey Hfirst).
  eexists; split; [ reflexivity | ]. unfold filterHistoricPlaces. split.
  - induction (filter isHistoric (results data)) as [ | c l IH ]; simpl; constructor.
    + repeat split.
    + exact IH.
  - rewrite length_map. apply filter_length_le.
Qed.

Lemma discovery_keeps_candidates_witness :
  FirstSuccess (Sample.secondPathAnswers [Sample.cafe; Sample.charminar])
               (targetUrl TaylorHost.toString "KEY" Sample.anchorLat Sample.anchorLng)
               1 (Sample.answer [Sample.cafe; Sample.charminar]) /\
  exists places : list Location,
    snd (Sample.run (Some "KEY") (Sample.secondPathAnswers [Sample.cafe; Sample.charminar]))
    = Normal places /\
    Forall2 copiedFrom [Sample.charminar] places /\
    (List.length places <= 2)%nat.
Proof.
  assert (Hfirst : FirstSuccess (Sample.secondPathAnswers [Sample.cafe; Sample.charminar])
                     (targetUrl TaylorHost.toString "KEY" Sample.anchorLat Sample.anchorLng)
                     1 (Sample.answer [Sample.cafe; Sample.charminar])).
  { split; [ simpl; lia | split; [ | reflexivity ] ].
    intros j Hj. assert (j = 0%nat) as -> by lia. reflexivity. }
  split; [ exact Hfirst | ].
  exact (discovery_keeps_candidates TaylorHost.sin TaylorHost.cos TaylorHost.atan2
           TaylorHost.toString "KEY" (Sample.secondPathAnswers [Sample.cafe; Sample.charminar])
           Sample.anchorLat Sample.anchorLng 1 (Sample.answer [Sample.cafe; Sample.charminar])
           eq_refl Hfirst).
Defined.

(** X7. A call makes at most four requests, whatever the key and the
    network. *)
Theorem at_most_four_requests
    (Math_sin Math_cos : float -> float) (Math_atan2 : float -> float -> float)
    (host_toString : float -> string) (apiKey : option string)
    (network : list Request -> Request -> Completion Response)
    (latitude longitude : float) :
  (List.length (fst (discoverPlaces Math_sin Math_cos Math_atan2 host_toString apiKey
                                    network latitude longitude)) <= 4)%nat.
Proof.
  destruct (truthy_opt apiKey) eqn:Hkey.
  - destruct apiKey as [key | ]; [ | discriminate ].
    destruct (discover_with_key Math_sin Math_cos Math_atan2 host_toString network
                latitude longitude key Hkey)
      as [(k & data & (Hk & _) & Hrun) | (_ & Hrun)];
      rewrite Hrun; unfold requestsOf; cbn [fst]; rewrite length_map, length_firstn;
      apply Nat.le_min_r.
  - rewrite (discover_without_key _ _ _ _ _ _ _ _ Hkey). simpl. lia.
Qed.

Lemma one_of_key_form (c : ascii) :
  JSUrl.one_of "-_" c = true -> JSUrl.one_of "*-._" c = true.
Proof.
  unfold JSUrl.one_of; simpl.
  destruct (Ascii.eqb c "-"), (Ascii.eqb c "_"), (Ascii.eqb c "*"), (Ascii.eqb c ".");
    simpl; congruence.
Qed.

Lemma one_of_key_component (c : ascii) :
  JSUrl.one_of "-_" c = true -> JSUrl.one_of "-_.!~*'()" c = true.
Proof.
  unfold JSUrl.one_of; simpl.
  destruct (Ascii.eqb c "-"), (Ascii.eqb c "_"); simpl; try congruence;
    intros _; now rewrite ?orb_true_r.
Qed.

(** The search parameters leave a key of key characters as it is. *)
Lemma form_encode_key (s : string) :
  forallb keyChar (list_ascii_of_string s) = true -> JSUrl.form_encode s = s.
Proof.
  induction s as [ | c s IH ]; simpl; [ reflexivity | ].
  intro H. apply andb_true_iff in H as [Hc Hs]. rewrite (IH Hs).
  unfold keyChar in Hc. apply orb_true_iff in Hc as [Hc | Hc].
  - now rewrite Hc.
  - now rewrite (one_of_key_form c Hc), orb_true_r.
Qed.

Lemma encodeURIComponent_key (s : string) :
  forallb keyChar (list_ascii_of_string s) = true -> JSUrl.encodeURIComponent s = s.
Proof.
  induction s as [ | c s IH ]; simpl; [ reflexivity | ].
  intro H. apply andb_true_iff in H as [Hc Hs]. rewrite (IH Hs).
  unfold keyChar in Hc. apply orb_true_iff in Hc as [Hc | Hc].
  - now rewrite Hc.
  - now rewrite (one_of_key_component c Hc), orb_true_r.
Qed.

Lemma encodeURIComponent_app (a b : string) :
  JSUrl.encodeURIComponent (a ++ b)
  = JSUrl.encodeURIComponent a ++ JSUrl.encodeURIComponent b.
Proof.
  induction a as [ | c a IH ]; simpl; [ reflexivity | ].
  now rewrite IH, append_assoc.
Qed.

Lemma URLSearchParams_last (params : list (string * string)) (k v : string) :
  params <> [] ->
  JSUrl.URLSearchParams (params ++ [(k, v)])
  = JSUrl.URLSearchParams params ++ "&" ++ JSUrl.form_encode k ++ "=" ++ JSUrl.form_encode v.
Proof.
  induction params as [ | [k1 v1] rest IH ]; [ congruence | intros _ ].
  destruct rest as [ | p rest ].
  - simpl. now rewrite !append_assoc.
  - change (JSUrl.URLSearchParams (((k1, v1) :: p :: rest) ++ [(k, v)]))
      with (JSUrl.form_encode k1 ++ "=" ++ JSUrl.form_encode v1 ++ "&"
            ++ JSUrl.URLSearchParams ((p :: rest) ++ [(k, v)])).
    rewrite IH by discriminate.
    change (JSUrl.URLSearchParams ((k1, v1) :: p :: rest))
      with (JSUrl.form_encode k1 ++ "=" ++ JSUrl.form_encode v1 ++ "&"
            ++ JSUrl.URLSearchParams (p :: rest)).
    now rewrite !append_assoc.
Qed.

(** The target URL ends with the key parameter. *)
Lemma targetUrl_ends_with_key (host_toString : float -> string) (key : string)
    (latitude longitude : float) :
  exists prefix,
    targetUrl host_toString key latitude longitude
    = prefix ++ JSUrl.form_encode key.
Proof.
  unfold targetUrl.
  change [("location", (JSNumber.toString host_toString latitude ++ ","
                          ++ JSNumber.toString host_toString longitude)%string);
          ("radius", "50000"); ("type", "tourist_attraction");
          ("keyword", "historic heritage monument museum archaeological temple fort palace");
          ("key", key)]
    with ([("location", (JSNumber.toString host_toString latitude ++ ","
                           ++ JSNumber.toString host_toString longitude)%string);
           ("radius", "50000"); ("type", "tourist_attraction");
           ("keyword", "historic heritage monument museum archaeological temple fort palace")]
          ++ [("key", key)])%list.
  rewrite URLSearchParams_last by discriminate.
  set (params := JSUrl.URLSearchParams _).
  exists (baseUrl ++ "?" ++ params ++ "&" ++ JSUrl.form_encode "key" ++ "=").
  now rewrite !append_assoc.
Qed.

(** Through whichever proxy, the URL asked ends like the target. *)
Lemma proxy_url_ends_with_key (corsProxy pre key : string) :
  forallb keyChar (list_ascii_of_string key) = true ->
  exists prefix, url (proxyRequest corsProxy (pre ++ key)) = prefix ++ key.
Proof.
  intro Hchars. unfold proxyRequest.
  destruct (JSString.includes corsProxy "allorigins.win"); cbn [url].
  - exists (corsProxy ++ JSUrl.encodeURIComponent pre).
    now rewrite encodeURIComponent_app, (encodeURIComponent_key key Hchars), append_assoc.
  - exists (corsProxy ++ pre). now rewrite append_assoc.
Qed.

(** X8. With a configured key made of letters, digits, [-] and [_], the
    URL of every request of a call ends with the key itself: each proxy
    that is asked is told the key. *)
Theorem key_reaches_every_proxy
    (Math_sin Math_cos : float -> float) (Math_atan2 : float -> float -> float)
    (host_toString : float -> string) (key : string)
    (network : list Request -> Request -> Completion Response)
    (latitude longitude : float)
    (Hkey : JSString.truthy key = true)
    (Hchars : forallb keyChar (list_ascii_of_string key) = true) :
  Forall (fun request => exists prefix, url request = prefix ++ key)
         (fst (discoverPlaces Math_sin Math_cos Math_atan2 host_toString (Some key) network
                              latitude longitude)).
Proof.
  destruct (targetUrl_ends_with_key host_toString key latitude longitude) as (pre & Htarget).
  rewrite (form_encode_key key Hchars) in Htarget.
  assert (Hall : Forall (fun request => exists prefix, url request = prefix ++ key)
                        (map (fun corsProxy =>
                                proxyRequest corsProxy
                                  (targetUrl host_toString key latitude longitude))
                             corsProxies)).
  { apply Forall_forall. intros request Hin.
    apply in_map_iff in Hin as (corsProxy & <- & _).
    rewrite Htarget. apply proxy_url_ends_with_key, Hchars. }
  assert (Hprefix : forall n,
             Forall (fun request => exists prefix, url request = prefix ++ key)
                    (requestsOf corsProxies
                       (targetUrl host_toString key latitude longitude) n)).
  { intro n. unfold requestsOf.
    rewrite <- (firstn_skipn n corsProxies), map_app in Hall.
    now apply Forall_app in Hall. }
  destruct (discover_with_key Math_sin Math_cos Math_atan2 host_toString network
              latitude longitude key Hkey)
    as [(k & data & _ & Hrun) | (_ & Hrun)]; rewrite Hrun; apply Hprefix.
Qed.

Lemma key_reaches_every_proxy_witness :
  forallb keyChar (list_ascii_of_string "AIza-Sy_0") = true /\
  Forall (fun request => exists prefix, url request = prefix ++ "AIza-Sy_0")
         (fst (Sample.run (Some "AIza-Sy_0") Sample.offline)).
Proof.
  split; [ reflexivity | ].
  exact (key_reaches_every_proxy TaylorHost.sin TaylorHost.cos TaylorHost.atan2
           TaylorHost.toString "AIza-Sy_0" Sample.offline
           Sample.anchorLat Sample.anchorLng eq_refl eq_refl).
Defined.

(* ================================================================== *)
(** * The other entry points on concrete inputs *)
(* ================================================================== *)

Example toFixed_digits :
  map (fun '(digits, x) => JSFixed.toFixed TaylorHost.toString digits x)
      [ (6%nat, 17.385); (6%nat, 4e-7); (6%nat, 1.0000005); (6%nat, -1e-7);
        (2%nat, 17.385); (0%nat, 2.5); (0%nat, -1e-7); (6%nat, 0) ]%float
  = ["17.385000"; "0.000000"; "1.000001"; "-0.000000"; "17.39"; "3"; "-0"; "0.000000"].
Proof. reflexivity. Qed.

Example backend_body :
  backendBody TaylorHost.toString 17 nan
  = "{" ++ JSJson.q "latitude" ++ ":17," ++ JSJson.q "longitude" ++ ":null,"
        ++ JSJson.q "radius" ++ ":50000}".
Proof. reflexivity. Qed.

Example stringify_escapes :
  JSJson.stringifyString ("a" ++ JSJson.quote ++ "b" ++ newline ++ "c")
  = JSJson.quote ++ "a" ++ JSJson.backslash ++ JSJson.quote ++ "b"
      ++ JSJson.backslash ++ "nc" ++ JSJson.quote.
Proof. reflexivity. Qed.

(* ================================================================== *)
(** * Properties of the backend calls *)
(* ================================================================== *)

(** X9. The call to the application's backend makes exactly one request,
    a POST of the coordinates, and never throws. When the backend answers
    with a success status and a body that parses, the body is returned as
    it is; in every other case the file of the client returns the fallback
    places and the file of the server-side service returns the empty
    list. *)
Theorem backend_call
    (host_toString : float -> string)
    (backend : list HttpRequest -> HttpRequest -> Completion BackendResponse)
    (latitude longitude : float) :
  let request := backendRequest host_toString latitude longitude in
  let answered :=
    match backend [] request with
    | Normal response =>
        if backendOk response
        then match backendJson response with Normal data => Some data | Throw _ => None end
        else None
    | Throw _ => None
    end in
  fetchHistoricPlacesFromBackend host_toString backend latitude longitude []
  = ([request],
     Normal match answered with
            | Some data => data
            | None => getFallbackHistoricPlaces latitude longitude
            end) /\
  BackendService.fetchHistoricPlacesFromBackend host_toString backend latitude longitude []
  = ([request],
     Normal match answered with
            | Some data => data
            | None => []
            end).
Proof.
  cbv zeta.
  unfold fetchHistoricPlacesFromBackend, BackendService.fetchHistoricPlacesFromBackend,
    attempt, askBackend, andThen, perform, settle, pure, raise.
  cbn [app].
  destruct (backend [] (backendRequest host_toString latitude longitude))
    as [response | reason]; [ | split; reflexivity ].
  destruct (backendOk response); cbn [negb]; [ | split; reflexivity ].
  destruct (backendJson response); split; reflexivity.
Qed.

(** X10. The server-side fetch asks the provider once, directly and
    without headers, for the very URL that the client sends through the
    proxies; it never throws; it returns the converted relevant candidates
    when the answer is a success whose status is OK, and the empty list
    in every other case, never fallback places. *)
Theorem server_fetch
    (Math_sin Math_cos : float -> float) (Math_atan2 : float -> float -> float)
    (host_toString : float -> string) (env : option string)
    (network : list Request -> Request -> Completion Response)
    (latitude longitude : float) (apiKey : string) :
  let request := {| url := targetUrl host_toString apiKey latitude longitude;
                    headers := [] |} in
  exists places : list BasicLocation,
    BackendService.fetchHistoricPlacesFromGoogleServer
      Math_sin Math_cos Math_atan2 host_toString env network latitude longitude apiKey []
    = ([request], Normal places) /\
    (places = [] \/
     exists response data,
       network [] request = Normal response /\ ok response = true /\
       body response = Direct data /\ status data = "OK" /\
       places = map (fun place =>
                       BackendService.convertGooglePlaceToLocation
                         Math_sin Math_cos Math_atan2 host_toString env
                         place latitude longitude)
                    (filter isHistoric (results data))).
Proof.
  cbv zeta.
  unfold BackendService.fetchHistoricPlacesFromGoogleServer,
    attempt, andThen, perform, pure, raise.
  cbn [app].
  destruct (network [] _) as [response | reason] eqn:Hanswer;
    [ | eexists; split; [ reflexivity | now left ] ].
  destruct (ok response) eqn:Hok; cbn [negb];
    [ | eexists; split; [ reflexivity | now left ] ].
  destruct (body response) as [ | code contents | data | ] eqn:Hbody;
    try (eexists; split; [ reflexivity | now left ]).
  destruct (String.eqb (status data) "OK") eqn:Hstatus; cbn [negb];
    [ | eexists; split; [ reflexivity | now left ] ].
  eexists; split; [ reflexivity | right ].
  exists response, data. apply String.eqb_eq in Hstatus. repeat split; assumption.
Qed.

(** X11. The two converters agree on the identifier, the name, the
    coordinates, the category and the distance label of a place. They
    differ on its image when it has a photo: with a configured key the
    client's URL is the server's behind the image proxy; without a key the
    client falls back to a static image while the server still builds a
    photo URL, ending in [key=undefined]. *)
Theorem server_and_client_conversions
    (Math_sin Math_cos : float -> float) (Math_atan2 : float -> float -> float)
    (host_toString : float -> string) (env : option string)
    (place : GooglePlaceResponse) (userLat userLng : float) :
  let client := convertGooglePlaceToLocation Math_sin Math_cos Math_atan2 host_toString
                  env place userLat userLng in
  let server := BackendService.convertGooglePlaceToLocation Math_sin Math_cos Math_atan2
                  host_toString env place userLat userLng in
  (Loc.id client, Loc.name client, Loc.latitude client, Loc.longitude client,
   Loc.category client, Loc.distance client)
  = (BasicLoc.id server, BasicLoc.name server, BasicLoc.latitude server,
     BasicLoc.longitude server, BasicLoc.category server, BasicLoc.distance server) /\
  (forall photo rest,
      GooglePlace.photos place = Some (photo :: rest) ->
      match env with
      | Some key =>
          JSString.truthy key = true ->
          Loc.imageUrl client = imageProxy ++ BasicLoc.imageUrl server
      | None =>
          Loc.imageUrl client = firstMatch staticImageRules genericImage place /\
          BasicLoc.imageUrl server
          = photoEndpoint ++ "?maxwidth=400&photoreference="
              ++ GooglePlace.photo_reference photo ++ "&key=undefined"
      end).
Proof.
  cbv zeta. split; [ reflexivity | ].
  intros photo rest Hphotos.
  unfold convertGooglePlaceToLocation, BackendService.convertGooglePlaceToLocation.
  cbn [Loc.imageUrl BasicLoc.imageUrl].
  destruct env as [key | ].
  - intro Hkey. unfold getImageUrl. rewrite Hphotos, Hkey. reflexivity.
  - split.
    + unfold getImageUrl. rewrite Hphotos.
      destruct (JSString.array_includes (GooglePlace.types place) "museum") eqn:H1;
        unfold firstMatch, staticImageRules, hasType, nameHas; rewrite H1; reflexivity.
    + rewrite Hphotos. reflexivity.
Qed.

(* ================================================================== *)
(** * Properties of the historical insights *)
(* ================================================================== *)

(** X12. The fallback insights echo the landmark's name, and none of
    their three lists is empty; which data they carry depends on the name
    only through its lower-cased form: the data of Charminar exactly when
    that form contains "charminar". *)
Theorem fallback_insights (landmarkName otherName : string) :
  Insights.landmark (getFallbackHistoricalInsights landmarkName) = landmarkName /\
  Insights.keyLocations (getFallbackHistoricalInsights landmarkName) <> [] /\
  Insights.civicEngagements (getFallbackHistoricalInsights landmarkName) <> [] /\
  Insights.currentOpportunities (getFallbackHistoricalInsights landmarkName) <> [] /\
  (JSString.toLowerCase landmarkName = JSString.toLowerCase otherName ->
   getFallbackHistoricalInsights otherName
   = if JSString.includes (JSString.toLowerCase landmarkName) "charminar"
     then charminarInsights otherName else genericInsights otherName).
Proof.
  unfold getFallbackHistoricalInsights.
  repeat split;
    try (destruct (JSString.includes (JSString.toLowerCase landmarkName) "charminar");
         (reflexivity || discriminate)).
  intros <-. reflexivity.
Qed.

Section InsightsCall.

Variable endpoint apiKey deployment : option string.
Variable host_toString : float -> string.
Variable JSON_parse : string -> Completion (option HistoricalInsights).
Variable service : list HttpRequest -> HttpRequest -> Completion ChatResponse.

Let call (landmarkName : string) :=
  fetchHistoricalInsights endpoint apiKey deployment host_toString JSON_parse service
                          landmarkName [].

(** X13. When the endpoint, the key or the deployment name is missing or
    empty, no request is made and the fallback insights are returned. *)
Theorem insights_unconfigured (landmarkName : string)
    (Hmissing : truthy_opt endpoint = false \/ truthy_opt apiKey = false \/
                truthy_opt deployment = false) :
  call landmarkName = ([], Normal (Some (getFallbackHistoricalInsights landmarkName))).
Proof.
  unfold call, fetchHistoricalInsights.
  destruct Hmissing as [-> | [-> | ->]]; cbn [negb orb]; rewrite ?orb_true_r; reflexivity.
Qed.


End InsightsCall.

(** No deployment name is configured. *)
Lemma insights_unconfigured_witness :
  (truthy_opt (Some "https://example.openai.azure.com") = false \/
   truthy_opt (Some "secret") = false \/ truthy_opt None = false) /\
  fetchHistoricalInsights (Some "https://example.openai.azure.com") (Some "secret") None
    TaylorHost.toString (fun _ => Throw "SyntaxError") (fun _ _ => Throw "TypeError")
    "Golconda Fort" []
  = ([], Normal (Some (getFallbackHistoricalInsights "Golconda Fort"))).
Proof.
  assert (H : truthy_opt (Some "https://example.openai.azure.com") = false \/
              truthy_opt (Some "secret") = false \/ truthy_opt None = false) by
    (right; right; reflexivity).
  split; [ exact H | ].
  exact (insights_unconfigured (Some "https://example.openai.azure.com") (Some "secret") None
           TaylorHost.toString (fun _ => Throw "SyntaxError") (fun _ _ => Throw "TypeError")
           "Golconda Fort" H).
Defined.

(* ================================================================== *)
(** * Properties of the home screen *)
(* ================================================================== *)

Section HomeScreenFacts.

Variable Math_sin Math_cos : float -> float.
Variable Math_atan2 : float -> float -> float.
Variable host_toString : float -> string.
Variable apiKey : option string.
Variable network : list Request -> Request -> Completion Response.
Variable toLocaleDateString toLocaleTimeString : float -> string.

Let click := HomeScreen.handleMapClick host_toString toLocaleDateString toLocaleTimeString.

(** X15. Loading the places never takes the branch of the [catch]: while
    the call is awaited the loading flag is set and the places are the old
    ones; once it is over the flag is cleared and the places are exactly
    those the discovery call returned, with the requests it made. The pins
    and the pin mode are not touched. *)
Theorem load_shows_the_discovery (latitude longitude : float) (s : HomeScreen.State) :
  exists places : list Location,
    discoverPlaces Math_sin Math_cos Math_atan2 host_toString apiKey network
                   latitude longitude
    = (fst (HomeScreen.loadHistoricPlaces Math_sin Math_cos Math_atan2 host_toString
              apiKey network latitude longitude s),
       Normal places) /\
    snd (HomeScreen.loadHistoricPlaces Math_sin Math_cos Math_atan2 host_toString
           apiKey network latitude longitude s)
    = ({| HomeScreen.historicPlaces := HomeScreen.historicPlaces s;
          HomeScreen.loadingPlaces := true;
          HomeScreen.droppedPins := HomeScreen.droppedPins s;
          HomeScreen.pinDropMode := HomeScreen.pinDropMode s |},
       {| HomeScreen.historicPlaces := places;
          HomeScreen.loadingPlaces := false;
          HomeScreen.droppedPins := HomeScreen.droppedPins s;
          HomeScreen.pinDropMode := HomeScreen.pinDropMode s |}).
Proof.
  assert (Hnormal : exists places,
             snd (discoverPlaces Math_sin Math_cos Math_atan2 host_toString apiKey network
                                 latitude longitude) = Normal places).
  { destruct (truthy_opt apiKey) eqn:Hkey.
    - destruct apiKey as [key | ]; [ | discriminate ].
      destruct (discover_with_key Math_sin Math_cos Math_atan2 host_toString network
                  latitude longitude key Hkey)
        as [(k & data & _ & Hrun) | (_ & Hrun)];
        rewrite Hrun; eexists; reflexivity.
    - rewrite (discover_without_key _ _ _ _ _ _ _ _ Hkey). eexists; reflexivity. }
  destruct Hnormal as (places & Hplaces). exists places.
  unfold HomeScreen.loadHistoricPlaces. unfold discoverPlaces in *.
  destruct (fetchHistoricPlacesWithCORS _ _ _ _ _ _ _ _ _) as [log completion].
  simpl in Hplaces. subst completion. split; reflexivity.
Qed.

(** X16. Pins need the pin button: whatever the user clicks and in
    whatever order, the screen holds at most as many pins more than before
    as the pin button was pressed, plus one if the pin mode was on at the
    start. No such click touches the places or the loading flag. *)
Theorem pins_need_arming (events : list HomeScreen.Event) (s : HomeScreen.State) :
  let s' := HomeScreen.handleAll host_toString toLocaleDateString toLocaleTimeString
              events s in
  (List.length (HomeScreen.droppedPins s')
   <= List.length (HomeScreen.droppedPins s)
      + List.length (filter HomeScreen.isPinButton events)
      + (if HomeScreen.pinDropMode s then 1 else 0))%nat /\
  HomeScreen.historicPlaces s' = HomeScreen.historicPlaces s /\
  HomeScreen.loadingPlaces s' = HomeScreen.loadingPlaces s.
Proof.
  cbv zeta. unfold HomeScreen.handleAll.
  revert s. induction events as [ | event events IH ]; intro s.
  - simpl. split; [ destruct (HomeScreen.pinDropMode s); lia | split; reflexivity ].
  - cbn [fold_left].
    destruct (IH (HomeScreen.handle host_toString toLocaleDateString toLocaleTimeString
                    s event)) as (Hpins & Hplaces & Hflag).
    rewrite Hplaces, Hflag. clear Hplaces Hflag.
    destruct event as [created now lat lng | | id];
      cbn [HomeScreen.handle filter HomeScreen.isPinButton List.length] in *.
    + unfold HomeScreen.MapClickHandler, HomeScreen.handleMapClick in *.
      destruct (HomeScreen.pinDropMode s) eqn:Hmode.
      * cbn in Hpins |- *. rewrite length_app in Hpins. cbn in Hpins.
        split; [ lia | split; reflexivity ].
      * cbn [fst] in Hpins |- *. rewrite Hmode in Hpins.
        split; [ lia | split; reflexivity ].
    + unfold HomeScreen.togglePinDropMode in *. cbn in Hpins |- *.
      split; [ | split; reflexivity ].
      destruct (HomeScreen.pinDropMode s); cbn [negb] in Hpins |- *; lia.
    + unfold HomeScreen.removePin in *. cbn in Hpins |- *.
      split; [ | split; reflexivity ].
      pose proof (filter_length_le
                    (fun pin => negb (String.eqb (HomeScreen.pinId pin) id))
                    (HomeScreen.droppedPins s)) as Hle.
      destruct (HomeScreen.pinDropMode s); lia.
Qed.

(** X17. The identifier of a pin is made of the clock's reading at its
    drop: two pins dropped at the same reading of the clock (the mode armed
    again in between) share their identifier, and removing the one removes
    the other too, the other pins staying as they are. *)
Theorem pins_of_one_instant (created created' now lat lng lat' lng' : float)
    (s : HomeScreen.State)
    (Hoff : HomeScreen.pinDropMode s = false) :
  let id := "pin-" ++ JSNumber.toString host_toString now in
  let first := fst (click created now lat lng (HomeScreen.togglePinDropMode s)) in
  let second := fst (click created' now lat' lng' (HomeScreen.togglePinDropMode first)) in
  map HomeScreen.pinId (HomeScreen.droppedPins second)
  = (map HomeScreen.pinId (HomeScreen.droppedPins s) ++ [id; id])%list /\
  HomeScreen.droppedPins (HomeScreen.removePin id second)
  = HomeScreen.droppedPins (HomeScreen.removePin id s).
Proof.
  cbv zeta. unfold click, HomeScreen.handleMapClick, HomeScreen.togglePinDropMode.
  rewrite Hoff. cbn. split.
  - rewrite <- app_assoc, map_app. reflexivity.
  - rewrite <- app_assoc, filter_app. cbn. rewrite String.eqb_refl. cbn.
    now rewrite app_nil_r.
Qed.

(** X18. A pin clicked later shows the location that was selected when
    it was dropped: the same identifier, name, description (with the time
    of the drop), coordinates, image and category; only the distance label
    changes, from "Just dropped" to the date of the drop. *)
Theorem dropped_pin_shown_again (created now lat lng : float) (s : HomeScreen.State)
    (Hon : HomeScreen.pinDropMode s = true) :
  exists pin location,
    click created now lat lng s
    = (HomeScreen.setPinDropMode false
         (HomeScreen.setDroppedPins (fun prev => prev ++ [pin])%list s),
       Some location) /\
    BasicLoc.distance location = "Just dropped" /\
    HomeScreen.handlePinClick host_toString toLocaleDateString toLocaleTimeString pin
    = {| BasicLoc.id := BasicLoc.id location;
         BasicLoc.name := BasicLoc.name location;
         BasicLoc.description := BasicLoc.description location;
         BasicLoc.latitude := BasicLoc.latitude location;
         BasicLoc.longitude := BasicLoc.longitude location;
         BasicLoc.imageUrl := BasicLoc.imageUrl location;
         BasicLoc.audioUrl := BasicLoc.audioUrl location;
         BasicLoc.audioTitle := BasicLoc.audioTitle location;
         BasicLoc.audioDuration := BasicLoc.audioDuration location;
         BasicLoc.category := BasicLoc.category location;
         BasicLoc.distance := "Dropped " ++ toLocaleDateString created |}.
Proof.
  unfold click, HomeScreen.handleMapClick. rewrite Hon.
  eexists; eexists. split; [ reflexivity | split; reflexivity ].
Qed.

End HomeScreenFacts.

(** The pin mode is off, no pin yet; two drops at 1700000000000 ms. *)
Lemma pins_of_one_instant_witness :
  HomeScreen.pinDropMode
    {| HomeScreen.historicPlaces := []; HomeScreen.loadingPlaces := false;
       HomeScreen.droppedPins := []; HomeScreen.pinDropMode := false |} = false /\
  map HomeScreen.pinId
      (HomeScreen.droppedPins
         (fst (HomeScreen.handleMapClick TaylorHost.toString (fun _ => "3/11/2026")
                 (fun _ => "10:00:00") 1700000000000 1700000000000 17.4 78.5
                 (HomeScreen.togglePinDropMode
                    (fst (HomeScreen.handleMapClick TaylorHost.toString
                            (fun _ => "3/11/2026") (fun _ => "10:00:00")
                            1700000000000 1700000000000 17.3 78.4
                            (HomeScreen.togglePinDropMode
                               {| HomeScreen.historicPlaces := [];
                                  HomeScreen.loadingPlaces := false;
                                  HomeScreen.droppedPins := [];
                                  HomeScreen.pinDropMode := false |})))))))
  = ["pin-1700000000000"; "pin-1700000000000"].
Proof.
  split; [ reflexivity | ].
  exact (proj1 (pins_of_one_instant TaylorHost.toString (fun _ => "3/11/2026")
                  (fun _ => "10:00:00") 1700000000000 1700000000000 1700000000000
                  17.3 78.4 17.4 78.5
                  {| HomeScreen.historicPlaces := []; HomeScreen.loadingPlaces := false;
                     HomeScreen.droppedPins := []; HomeScreen.pinDropMode := false |}
                  eq_refl)).
Defined.


(** The pin mode is on; a drop at 1700000000000 ms. *)
Lemma dropped_pin_shown_again_witness :
  exists pin location,
    HomeScreen.handleMapClick TaylorHost.toString (fun _ => "3/11/2026")
      (fun _ => "10:00:00") 1700000000000 1700000000000 17.3 78.4
      {| HomeScreen.historicPlaces := []; HomeScreen.loadingPlaces := false;
         HomeScreen.droppedPins := []; HomeScreen.pinDropMode := true |}
    = ({| HomeScreen.historicPlaces := []; HomeScreen.loadingPlaces := false;
          HomeScreen.droppedPins := [pin]; HomeScreen.pinDropMode := false |},
       Some location) /\
    BasicLoc.distance
      (HomeScreen.handlePinClick TaylorHost.toString (fun _ => "3/11/2026")
         (fun _ => "10:00:00") pin)
    = "Dropped 3/11/2026".
Proof.
  destruct (dropped_pin_shown_again TaylorHost.toString (fun _ => "3/11/2026")
              (fun _ => "10:00:00") 1700000000000 1700000000000 17.3 78.4
              {| HomeScreen.historicPlaces := []; HomeScreen.loadingPlaces := false;
                 HomeScreen.droppedPins := []; HomeScreen.pinDropMode := true |}
              eq_refl) as (pin & location & Hclick & _ & Hshown).
  exists pin, location. split; [ exact Hclick | ].
  rewrite Hshown. reflexivity.
Defined.


(* ================================================================== *)
(** * Envelopes *)
(* ================================================================== *)

(** X19. An answer that reaches the client through allorigins without
    the wrapper of that proxy is discarded, even when it is the provider's
    own successful answer: the call goes on to the second proxy at least. *)
Theorem bare_answer_through_allorigins
    (Math_sin Math_cos : float -> float) (Math_atan2 : float -> float -> float)
    (host_toString : float -> string) (key : string)
    (network : list Request -> Request -> Completion Response)
    (latitude longitude : float) (response : Response) (data : GooglePlacesApiResponse)
    (Hkey : JSString.truthy key = true)
    (Hanswer : network [] (proxyRequest "https://api.allorigins.win/get?url="
                                        (targetUrl host_toString key latitude longitude))
               = Normal response)
    (Hbody : body response = Direct data) :
  exists n,
    (2 <= n <= 4)%nat /\
    fst (discoverPlaces Math_sin Math_cos Math_atan2 host_toString (Some key) network
                        latitude longitude)
    = requestsOf corsProxies (targetUrl host_toString key latitude longitude) n.
Proof.
  assert (Hfirst : pathDataAt network [] corsProxies
                     (targetUrl host_toString key latitude longitude) 0 = None).
  { unfold pathDataAt, requestsOf. cbn [nth corsProxies firstn map app].
    rewrite Hanswer. unfold pathData. rewrite Hbody.
    destruct (ok response); reflexivity. }
  destruct (discover_with_key Math_sin Math_cos Math_atan2 host_toString network
              latitude longitude key Hkey)
    as [(k & data' & (Hk & _ & Hok) & Hrun) | (_ & Hrun)]; rewrite Hrun; cbn [fst].
  - exists (S k). split; [ | reflexivity ].
    destruct k as [ | k ]; [ rewrite Hfirst in Hok; discriminate | ].
    simpl in Hk. lia.
  - exists 4%nat. split; [ lia | reflexivity ].
Qed.

(** Every proxy passes the provider's answer on as it is. *)
Lemma bare_answer_through_allorigins_witness :
  exists n,
    (2 <= n <= 4)%nat /\
    fst (Sample.run (Some "KEY")
           (fun _ _ => Normal {| ok := true; http_status := 200;
                                 body := Direct (Sample.answer [Sample.charminar]) |}))
    = requestsOf corsProxies
                 (targetUrl TaylorHost.toString "KEY" Sample.anchorLat Sample.anchorLng) n.
Proof.
  exact (bare_answer_through_allorigins TaylorHost.sin TaylorHost.cos TaylorHost.atan2
           TaylorHost.toString "KEY"
           (fun _ _ => Normal {| ok := true; http_status := 200;
                                 body := Direct (Sample.answer [Sample.charminar]) |})
           Sample.anchorLat Sample.anchorLng
           {| ok := true; http_status := 200;
              body := Direct (Sample.answer [Sample.charminar]) |}
           (Sample.answer [Sample.charminar]) eq_refl eq_refl eq_refl).
Defined.

(** With one digit the general printing is the one of the distance label. *)
Lemma toFixed_one_digit (host_toString : float -> string) (x : float) :
  JSFixed.toFixed host_toString 1 x = JSNumber.toFixed1 host_toString x.
Proof.
  unfold JSFixed.toFixed, JSNumber.toFixed1.
  destruct (Prim2SF x) as [s | s | | s m e]; try reflexivity.
  destruct (JSNumber.at_least_1e21 m e); [ reflexivity | ].
  assert (Hn : JSFixed.nearest 1 m e = JSNumber.nearest_tenths m e).
  { unfold JSFixed.nearest, JSNumber.nearest_tenths.
    change (10 ^ Z.of_nat 1) with 10. destruct (0 <=? e); f_equal; lia. }
  cbv zeta. rewrite Hn. change (10 ^ Z.of_nat 1) with 10.
  unfold JSFixed.fraction, JSFixed.padStart.
  rewrite decimal_digit by (apply Z.mod_pos_bound; lia).
  reflexivity.
Qed.
